(** * Feel_components: the component adapters of [main.py]

    [main.py] defines nineteen [FlexComponent] subclasses.  Each one wraps a
    widget of the GUI toolkit ([flet], imported as [ft]): the constructor
    forwards its arguments and its configuration bag ([**kwargs]) to a toolkit
    constructor, [build] returns the widget, and seven of the classes add a
    [value] property that mirrors the widget's own.

    The embedding is shallow.  Python objects live in a store and are named
    by their location, so that object identity, the mutation done by the
    [value] setters and the redisplay requests are explicit.  Code that can
    raise runs in a small state-and-exception monad. *)

From Stdlib Require Import ZArith Floats.
From stdpp Require Import gmap strings list fin_maps pretty.

Set Warnings "-register-all,-inexact-float,-clear-no-such-hyp".

(** ** Python values *)

(** The location of an object in the store. *)
Abbreviation loc := nat (only parsing).

(** The four members of [ft.colors] that [Alert] names. *)
Inductive ft_colors := BLUE | GREEN | ORANGE | RED.

Inductive pyval :=
| VNone
| VBool (b : bool)
| VInt (n : Z)
| VFloat (f : float)
| VStr (s : string)
| VColor (c : ft_colors)
| VFun (name : string)              (* a callable, e.g. an event handler *)
| VRef (l : loc)                    (* a reference to an object of the store *)
| VList (vs : list pyval)
| VDict (d : gmap string pyval).

(** Truth value of a Python value, as tested by [if color] in [Button]. *)
Definition truthy (v : pyval) : bool :=
  match v with
  | VNone => false
  | VBool b => b
  | VInt n => negb (n =? 0)%Z
  | VFloat f => negb (f =? 0)%float
  | VStr s => negb (String.eqb s "")
  | VColor _ | VFun _ | VRef _ => true
  | VList vs => match vs with [] => false | _ => true end
  | VDict d => negb (bool_decide (d = ∅))
  end.

(** ** Objects and the store *)

(** The toolkit classes that [main.py] instantiates. *)
Inductive ft :=
| ft_Text | ft_ElevatedButton | ft_ButtonStyle | ft_TextField | ft_Container
| ft_Column | ft_Image | ft_TextButton | ft_DataTable | ft_DataColumn
| ft_DataRow | ft_DataCell | ft_Checkbox | ft_RadioGroup | ft_Radio
| ft_Dropdown | ft_dropdown_Option | ft_Slider | ft_ProgressBar | ft_Tabs
| ft_Tab.

(** The instance attributes that each subclass of [FlexComponent] assigns in
    its [__init__]; the constructor arguments carry the attribute names.  The
    base class [ft.UserControl] belongs to the toolkit: what it does with an
    adapter once the adapter is on a page is outside this layer, and the
    attributes are the plain attributes that [main.py] assigns and reads. *)
Inductive component :=
| Text (text_control : loc)
| Button (button : loc)
| Input (input : loc)
| Div (controls : list pyval)
| Image (image : loc)
| Heading (text : loc)
| Paragraph (paragraph : loc)
| Link (link : loc)
| UnorderedList (items : list string)
| OrderedList (items : list string)
| Table (headers : list string) (rows : list (list string))
| Form (controls : list pyval) (on_submit : pyval)
| Checkbox (checkbox : loc)
| RadioGroup (options : list pyval) (radio_group : loc)
| Dropdown (dropdown : loc)
| Slider (slider : loc)
| ProgressBar (progress_bar : loc)
| Tabs (tabs : loc)
| Alert (alert : loc).

(** Modelled from the spec: the widgets of the external toolkit, whose code is
    not part of the repository.  A widget is its class and the options it
    holds: "an external GUI toolkit's renderable UI unit", configured by "an
    open-ended set of named options forwarded to the external widget
    constructor".  An adapter is a [FlexComponent]: the [kwargs] stored by the
    base class and the attributes of the subclass. *)
Inductive obj :=
| Widget (c : ft) (attrs : gmap string pyval)
| FlexComponent (kwargs : gmap string pyval) (self : component).

(** The store: the objects allocated so far, an object's location being its
    index, and the redisplay requests ([update()] calls) made so far, oldest
    first. *)
Record store := Store { heap : list obj; redisplays : list loc }.

Definition empty_store : store := Store [] [].

Definition push (o : obj) (σ : store) : store :=
  Store (heap σ ++ [o]) (redisplays σ).

(** ** The monad of Python computations *)

Inductive exn := TypeError | AttributeError.

Inductive outcome (A : Type) :=
| Ok (a : A) (σ : store)
| Raise (e : exn).
Arguments Ok {A} a σ.
Arguments Raise {A} e.

Definition M (A : Type) : Type := store → outcome A.

#[export] Instance M_ret : MRet M := λ A a σ, Ok a σ.
#[export] Instance M_bind : MBind M := λ A B k m σ,
  match m σ with
  | Ok a σ' => k a σ'
  | Raise e => Raise e
  end.

Definition raise {A} (e : exn) : M A := λ _, Raise e.

(** Creating an object gives it a location no earlier object has. *)
Definition alloc (o : obj) : M loc := λ σ, Ok (length (heap σ)) (push o σ).

(** A list comprehension [[f x for x in xs]] whose element expression may
    allocate or raise. *)
Fixpoint comprehension {A B} (f : A → M B) (xs : list A) : M (list B) :=
  match xs with
  | [] => mret []
  | x :: xs => y ← f x; ys ← comprehension f xs; mret (y :: ys)
  end.

(** [enumerate(xs)]. *)
Fixpoint enumerate_from {A} (i : nat) (xs : list A) : list (nat * A) :=
  match xs with
  | [] => []
  | x :: xs => (i, x) :: enumerate_from (S i) xs
  end.
Definition enumerate {A} (xs : list A) : list (nat * A) := enumerate_from 0 xs.

(** ** Calling the toolkit *)

(** A call [C(p, k1=v1, ..., **kw)].  [named] lists the arguments the call
    site writes out, under their parameter names; Python raises [TypeError]
    when [kw] gives one of these names again.  The positional arguments of the
    source are bound to the first parameter of the toolkit constructor:
    [value] for [ft.Text], [text] for [ft.ElevatedButton], [controls] for
    [ft.Column], [label] for [ft.DataColumn], [content] for [ft.DataCell],
    [key] for [ft.dropdown.Option]. *)
Definition no_collision (named : list (string * pyval))
    (kw : gmap string pyval) : bool :=
  forallb (λ kv, match kw !! kv.1 with None => true | Some _ => false end) named.

Definition bind_args (named : list (string * pyval))
    (kw : gmap string pyval) : gmap string pyval :=
  foldr (λ kv m, <[kv.1 := kv.2]> m) kw named.

Definition ft_new (c : ft) (named : list (string * pyval))
    (kw : gmap string pyval) : M loc :=
  if no_collision named kw
  then alloc (Widget c (bind_args named kw))
  else raise TypeError.

(** [w.name] and [w.name = v] on a widget.  The toolkit's own default for an
    option the widget was never given is not modelled: it reads as [None]. *)
Definition getattr (w : loc) (name : string) : M pyval := λ σ,
  match heap σ !! w with
  | Some (Widget _ attrs) => Ok (default VNone (attrs !! name)) σ
  | _ => Raise AttributeError
  end.

Definition setattr (w : loc) (name : string) (v : pyval) : M unit := λ σ,
  match heap σ !! w with
  | Some (Widget c attrs) =>
      Ok tt (Store (<[w := Widget c (<[name := v]> attrs)]> (heap σ)) (redisplays σ))
  | _ => Raise AttributeError
  end.

(** [self.update()]: the adapter asks the toolkit for a redisplay.  What the
    toolkit then does is outside this layer; the request is recorded. *)
Definition update (self : loc) : M unit := λ σ,
  Ok tt (Store (heap σ) (redisplays σ ++ [self])).

(** ** The constructors

    [FlexComponent.__init__] stores [kwargs]; each subclass then assigns its
    own attributes.  The adapter enters the store when its [__init__] has
    run: a constructor that raises leaves no adapter behind. *)
Definition new_component (kwargs : gmap string pyval) (c : component) : M loc :=
  alloc (FlexComponent kwargs c).

(** [Text.__init__]: [self.text_control = ft.Text(text, **kwargs)]. *)
Definition new_Text (text : pyval) (kwargs : gmap string pyval) : M loc :=
  text_control ← ft_new ft_Text [("value", text)] kwargs;
  new_component kwargs (Text text_control).

(** [Button.__init__]: [self.button = ft.ElevatedButton(text=text,
    style=ft.ButtonStyle(color={'': color}) if color else None,
    on_click=on_click, **kwargs)]. *)
Definition new_Button (text color on_click : pyval)
    (kwargs : gmap string pyval) : M loc :=
  style ← (if truthy color
           then s ← ft_new ft_ButtonStyle [("color", VDict {["" := color]})] ∅;
                mret (VRef s)
           else mret VNone);
  button ← ft_new ft_ElevatedButton
             [("text", text); ("style", style); ("on_click", on_click)] kwargs;
  new_component kwargs (Button button).

(** [Input.__init__]: [self.input = ft.TextField(hint_text=placeholder, **kwargs)]. *)
Definition new_Input (placeholder : pyval) (kwargs : gmap string pyval) : M loc :=
  input ← ft_new ft_TextField [("hint_text", placeholder)] kwargs;
  new_component kwargs (Input input).

(** [Div.__init__]: [self.controls = controls]. *)
Definition new_Div (controls : list pyval) (kwargs : gmap string pyval) : M loc :=
  new_component kwargs (Div controls).

(** [Image.__init__]: [self.image = ft.Image(src=src, **kwargs)]. *)
Definition new_Image (src : pyval) (kwargs : gmap string pyval) : M loc :=
  image ← ft_new ft_Image [("src", src)] kwargs;
  new_component kwargs (Image image).

(** The dictionary [sizes] of [Heading.__init__]. *)
Definition sizes : gmap Z pyval :=
  <[1%Z := VInt 32]> (<[2%Z := VInt 24]> (<[3%Z := VFloat 18.72]>
  (<[4%Z := VInt 16]> (<[5%Z := VFloat 13.28]> (<[6%Z := VFloat 10.72]> ∅))))).

(** [Heading.__init__]: [self.text = ft.Text(text, size=sizes.get(level, 16),
    weight="bold", **kwargs)]. *)
Definition new_Heading (level : Z) (text : pyval)
    (kwargs : gmap string pyval) : M loc :=
  text ← ft_new ft_Text
           [("value", text); ("size", default (VInt 16) (sizes !! level));
            ("weight", VStr "bold")] kwargs;
  new_component kwargs (Heading text).

(** [Paragraph.__init__]: [self.paragraph = ft.Text(text, **kwargs)]. *)
Definition new_Paragraph (text : pyval) (kwargs : gmap string pyval) : M loc :=
  paragraph ← ft_new ft_Text [("value", text)] kwargs;
  new_component kwargs (Paragraph paragraph).

(** [Link.__init__]: [self.link = ft.TextButton(text=text, url=url, **kwargs)]. *)
Definition new_Link (text url : pyval) (kwargs : gmap string pyval) : M loc :=
  link ← ft_new ft_TextButton [("text", text); ("url", url)] kwargs;
  new_component kwargs (Link link).

(** [UnorderedList.__init__]: [self.items = items]. *)
Definition new_UnorderedList (items : list string)
    (kwargs : gmap string pyval) : M loc :=
  new_component kwargs (UnorderedList items).

(** [OrderedList.__init__]: [self.items = items]. *)
Definition new_OrderedList (items : list string)
    (kwargs : gmap string pyval) : M loc :=
  new_component kwargs (OrderedList items).

(** [Table.__init__]: [self.headers = headers; self.rows = rows]. *)
Definition new_Table (headers : list string) (rows : list (list string))
    (kwargs : gmap string pyval) : M loc :=
  new_component kwargs (Table headers rows).

(** [Form.__init__]: [self.controls = controls; self.on_submit = on_submit]. *)
Definition new_Form (controls : list pyval) (on_submit : pyval)
    (kwargs : gmap string pyval) : M loc :=
  new_component kwargs (Form controls on_submit).

(** [Checkbox.__init__]: [self.checkbox = ft.Checkbox(label=label, value=value,
    **kwargs)]. *)
Definition new_Checkbox (label value : pyval)
    (kwargs : gmap string pyval) : M loc :=
  checkbox ← ft_new ft_Checkbox [("label", label); ("value", value)] kwargs;
  new_component kwargs (Checkbox checkbox).

(** [RadioGroup.__init__]: [self.options = options], then
    [self.radio_group = ft.RadioGroup(content=ft.Column([ft.Radio(value=option,
    label=option) for option in options]), **kwargs)]. *)
Definition new_RadioGroup (options : list pyval)
    (kwargs : gmap string pyval) : M loc :=
  radios ← comprehension
             (λ option, r ← ft_new ft_Radio [("value", option); ("label", option)] ∅;
                        mret (VRef r)) options;
  column ← ft_new ft_Column [("controls", VList radios)] ∅;
  radio_group ← ft_new ft_RadioGroup [("content", VRef column)] kwargs;
  new_component kwargs (RadioGroup options radio_group).

(** [Dropdown.__init__]: [self.dropdown = ft.Dropdown(
    options=[ft.dropdown.Option(option) for option in options], **kwargs)]. *)
Definition new_Dropdown (options : list pyval)
    (kwargs : gmap string pyval) : M loc :=
  opts ← comprehension
           (λ option, o ← ft_new ft_dropdown_Option [("key", option)] ∅;
                      mret (VRef o)) options;
  dropdown ← ft_new ft_Dropdown [("options", VList opts)] kwargs;
  new_component kwargs (Dropdown dropdown).

(** [Slider.__init__]: [self.slider = ft.Slider(min=min, max=max, value=value,
    **kwargs)]. *)
Definition new_Slider (min max value : pyval)
    (kwargs : gmap string pyval) : M loc :=
  slider ← ft_new ft_Slider [("min", min); ("max", max); ("value", value)] kwargs;
  new_component kwargs (Slider slider).

(** [ProgressBar.__init__]: [self.progress_bar = ft.ProgressBar(value=value,
    **kwargs)]. *)
Definition new_ProgressBar (value : pyval) (kwargs : gmap string pyval) : M loc :=
  progress_bar ← ft_new ft_ProgressBar [("value", value)] kwargs;
  new_component kwargs (ProgressBar progress_bar).

(** One element of the comprehension in [Tabs.__init__]: a [dict] is unpacked
    into the keyword arguments of [ft.Tab], anything else is kept as it is. *)
Definition normalize_tab (tab : pyval) : M pyval :=
  match tab with
  | VDict d => t ← ft_new ft_Tab [] d; mret (VRef t)
  | _ => mret tab
  end.

(** [Tabs.__init__]: [self.tabs = ft.Tabs(tabs=[... for tab in tabs], **kwargs)]. *)
Definition new_Tabs (tabs : list pyval) (kwargs : gmap string pyval) : M loc :=
  ts ← comprehension normalize_tab tabs;
  tabs ← ft_new ft_Tabs [("tabs", VList ts)] kwargs;
  new_component kwargs (Tabs tabs).

(** The dictionary [colors] of [Alert.__init__]. *)
Definition colors : gmap string pyval :=
  <["info" := VColor BLUE]> (<["success" := VColor GREEN]>
  (<["warning" := VColor ORANGE]> (<["error" := VColor RED]> ∅))).

(** [Alert.__init__]: [self.alert = ft.Container(content=ft.Text(text),
    bgcolor=colors.get(severity, ft.colors.BLUE), padding=10, border_radius=5,
    **kwargs)]. *)
Definition new_Alert (text : pyval) (severity : string)
    (kwargs : gmap string pyval) : M loc :=
  content ← ft_new ft_Text [("value", text)] ∅;
  alert ← ft_new ft_Container
            [("content", VRef content);
             ("bgcolor", default (VColor BLUE) (colors !! severity));
             ("padding", VInt 10); ("border_radius", VInt 5)] kwargs;
  new_component kwargs (Alert alert).

(** ** [build] *)

(** [ft.Text(s)] for a string [s]. *)
Definition ft_Text_of (s : string) : M pyval :=
  t ← ft_new ft_Text [("value", VStr s)] ∅; mret (VRef t).

(** [Div.build]: [ft.Container(content=ft.Column(controls=list(self.controls)),
    **self.kwargs)]. *)
Definition Div_build (kwargs : gmap string pyval) (controls : list pyval) : M pyval :=
  column ← ft_new ft_Column [("controls", VList controls)] ∅;
  container ← ft_new ft_Container [("content", VRef column)] kwargs;
  mret (VRef container).

(** The prefix in the f-string of [UnorderedList.build], byte for byte as
    [main.py] has it: c3 a2, e2 82 ac, c2 a2, 20.  Python reads these UTF-8
    bytes as the characters U+00E2, U+20AC, U+00A2 and a space. *)
Definition UnorderedList_prefix : string :=
  String (Ascii.ascii_of_nat 195) (String (Ascii.ascii_of_nat 162)
  (String (Ascii.ascii_of_nat 226) (String (Ascii.ascii_of_nat 130) (String (Ascii.ascii_of_nat 172)
  (String (Ascii.ascii_of_nat 194) (String (Ascii.ascii_of_nat 162) " ")))))).

(** [UnorderedList.build]: a column of [ft.Text(f"<prefix>{item}")], one per
    item, with [**self.kwargs]. *)
Definition UnorderedList_build (kwargs : gmap string pyval)
    (items : list string) : M pyval :=
  controls ← comprehension
               (λ item, ft_Text_of (UnorderedList_prefix +:+ item)) items;
  column ← ft_new ft_Column [("controls", VList controls)] kwargs;
  mret (VRef column).

(** [OrderedList.build]: a column of [ft.Text(f"{i+1}. {item}")] for [i, item]
    in [enumerate(self.items)], with [**self.kwargs]. *)
Definition OrderedList_build (kwargs : gmap string pyval)
    (items : list string) : M pyval :=
  controls ← comprehension
               (λ '(i, item), ft_Text_of (pretty (i + 1) +:+ ". " +:+ item))
               (enumerate items);
  column ← ft_new ft_Column [("controls", VList controls)] kwargs;
  mret (VRef column).

(** [Table.build]: [ft.DataTable] with one [ft.DataColumn(ft.Text(header))] per
    header, one [ft.DataRow] of [ft.DataCell(ft.Text(cell))] per row, and
    [**self.kwargs]. *)
Definition Table_build (kwargs : gmap string pyval) (headers : list string)
    (rows : list (list string)) : M pyval :=
  columns ← comprehension
              (λ header, label ← ft_Text_of header;
                         c ← ft_new ft_DataColumn [("label", label)] ∅;
                         mret (VRef c)) headers;
  rows ← comprehension
           (λ row, cells ← comprehension
                             (λ cell, content ← ft_Text_of cell;
                                      c ← ft_new ft_DataCell [("content", content)] ∅;
                                      mret (VRef c)) row;
                   r ← ft_new ft_DataRow [("cells", VList cells)] ∅;
                   mret (VRef r)) rows;
  table ← ft_new ft_DataTable
            [("columns", VList columns); ("rows", VList rows)] kwargs;
  mret (VRef table).

(** [Form.build]: a container, with [**self.kwargs], around a column of the
    controls followed by [ft.ElevatedButton("Submit", on_click=self.on_submit)]. *)
Definition Form_build (kwargs : gmap string pyval) (controls : list pyval)
    (on_submit : pyval) : M pyval :=
  submit ← ft_new ft_ElevatedButton
             [("text", VStr "Submit"); ("on_click", on_submit)] ∅;
  column ← ft_new ft_Column [("controls", VList (controls ++ [VRef submit]))] ∅;
  container ← ft_new ft_Container [("content", VRef column)] kwargs;
  mret (VRef container).

(** The attributes of the adapter at [self]. *)
Definition self_of (self : loc) : M (gmap string pyval * component) := λ σ,
  match heap σ !! self with
  | Some (FlexComponent kwargs c) => Ok (kwargs, c) σ
  | _ => Raise AttributeError
  end.

(** [self.build()], dispatched on the class of [self]. *)
Definition build (self : loc) : M pyval :=
  '(kwargs, c) ← self_of self;
  match c with
  | Text text_control => mret (VRef text_control)
  | Button button => mret (VRef button)
  | Input input => mret (VRef input)
  | Div controls => Div_build kwargs controls
  | Image image => mret (VRef image)
  | Heading text => mret (VRef text)
  | Paragraph paragraph => mret (VRef paragraph)
  | Link link => mret (VRef link)
  | UnorderedList items => UnorderedList_build kwargs items
  | OrderedList items => OrderedList_build kwargs items
  | Table headers rows => Table_build kwargs headers rows
  | Form controls on_submit => Form_build kwargs controls on_submit
  | Checkbox checkbox => mret (VRef checkbox)
  | RadioGroup _ radio_group => mret (VRef radio_group)
  | Dropdown dropdown => mret (VRef dropdown)
  | Slider slider => mret (VRef slider)
  | ProgressBar progress_bar => mret (VRef progress_bar)
  | Tabs tabs => mret (VRef tabs)
  | Alert alert => mret (VRef alert)
  end.

(** ** The [value] property *)

(** The widget behind the [value] property, for the seven classes that define
    it. *)
Definition value_widget (c : component) : option loc :=
  match c with
  | Text text_control => Some text_control
  | Input input => Some input
  | Checkbox checkbox => Some checkbox
  | RadioGroup _ radio_group => Some radio_group
  | Dropdown dropdown => Some dropdown
  | Slider slider => Some slider
  | ProgressBar progress_bar => Some progress_bar
  | _ => None
  end.

(** The getter: [return self.<widget>.value].  The other twelve classes have
    no such attribute. *)
Definition value (self : loc) : M pyval :=
  '(_, c) ← self_of self;
  match value_widget c with
  | Some w => getattr w "value"
  | None => raise AttributeError
  end.

(** The setter: [self.<widget>.value = v; self.update()], which seven classes
    define.  On one of the other twelve Python would store a plain attribute
    on the adapter, which [component] has no place for; the model raises
    there, so that a run of [value_setter] that returns is a run of one of
    the seven setters of [main.py]. *)
Definition value_setter (self : loc) (v : pyval) : M unit :=
  '(_, c) ← self_of self;
  match value_widget c with
  | Some w => _ ← setattr w "value" v; update self
  | None => raise AttributeError
  end.

(** ** Constructor calls *)

(** A call of one of the nineteen constructors, with its arguments. *)
Inductive ctor :=
| CallText (text : pyval) (kwargs : gmap string pyval)
| CallButton (text color on_click : pyval) (kwargs : gmap string pyval)
| CallInput (placeholder : pyval) (kwargs : gmap string pyval)
| CallDiv (controls : list pyval) (kwargs : gmap string pyval)
| CallImage (src : pyval) (kwargs : gmap string pyval)
| CallHeading (level : Z) (text : pyval) (kwargs : gmap string pyval)
| CallParagraph (text : pyval) (kwargs : gmap string pyval)
| CallLink (text url : pyval) (kwargs : gmap string pyval)
| CallUnorderedList (items : list string) (kwargs : gmap string pyval)
| CallOrderedList (items : list string) (kwargs : gmap string pyval)
| CallTable (headers : list string) (rows : list (list string))
    (kwargs : gmap string pyval)
| CallForm (controls : list pyval) (on_submit : pyval) (kwargs : gmap string pyval)
| CallCheckbox (label value : pyval) (kwargs : gmap string pyval)
| CallRadioGroup (options : list pyval) (kwargs : gmap string pyval)
| CallDropdown (options : list pyval) (kwargs : gmap string pyval)
| CallSlider (min max value : pyval) (kwargs : gmap string pyval)
| CallProgressBar (value : pyval) (kwargs : gmap string pyval)
| CallTabs (tabs : list pyval) (kwargs : gmap string pyval)
| CallAlert (text : pyval) (severity : string) (kwargs : gmap string pyval).

Definition construct (c : ctor) : M loc :=
  match c with
  | CallText text kwargs => new_Text text kwargs
  | CallButton text color on_click kwargs => new_Button text color on_click kwargs
  | CallInput placeholder kwargs => new_Input placeholder kwargs
  | CallDiv controls kwargs => new_Div controls kwargs
  | CallImage src kwargs => new_Image src kwargs
  | CallHeading level text kwargs => new_Heading level text kwargs
  | CallParagraph text kwargs => new_Paragraph text kwargs
  | CallLink text url kwargs => new_Link text url kwargs
  | CallUnorderedList items kwargs => new_UnorderedList items kwargs
  | CallOrderedList items kwargs => new_OrderedList items kwargs
  | CallTable headers rows kwargs => new_Table headers rows kwargs
  | CallForm controls on_submit kwargs => new_Form controls on_submit kwargs
  | CallCheckbox label value kwargs => new_Checkbox label value kwargs
  | CallRadioGroup options kwargs => new_RadioGroup options kwargs
  | CallDropdown options kwargs => new_Dropdown options kwargs
  | CallSlider min max value kwargs => new_Slider min max value kwargs
  | CallProgressBar value kwargs => new_ProgressBar value kwargs
  | CallTabs tabs kwargs => new_Tabs tabs kwargs
  | CallAlert text severity kwargs => new_Alert text severity kwargs
  end.

(** The value a constructor call passes for the widget's [value]: the
    [text] of [Text], the [value] parameter of [Checkbox], [Slider] and
    [ProgressBar], and the [value] option of the configuration bag for
    [Input], [RadioGroup] and [Dropdown], which have no parameter for it. *)
Definition initial_value (c : ctor) : option pyval :=
  match c with
  | CallText text _ => Some text
  | CallInput _ kwargs => kwargs !! "value"
  | CallCheckbox _ value _ => Some value
  | CallRadioGroup _ kwargs => kwargs !! "value"
  | CallDropdown _ kwargs => kwargs !! "value"
  | CallSlider _ _ value _ => Some value
  | CallProgressBar value _ => Some value
  | _ => None
  end.

(** [n] successive calls of [self.build()], with their results in order. *)
Fixpoint build_n (n : nat) (self : loc) : M (list pyval) :=
  match n with
  | 0 => mret []
  | S n => w ← build self; ws ← build_n n self; mret (w :: ws)
  end.

(** Successive assignments [self.value = v] for the [v] of [vs], in order. *)
Fixpoint set_all (self : loc) (vs : list pyval) : M unit :=
  match vs with
  | [] => mret tt
  | v :: vs => _ ← value_setter self v; set_all self vs
  end.

(** ** Reading a widget tree

    Executable observations of the store, used to state what a built tree
    contains. *)

#[export] Instance ft_eq_dec : EqDecision ft.
Proof. solve_decision. Defined.

(** The options of the widget of class [c] that [v] refers to. *)
Definition widget_at (σ : store) (c : ft) (v : pyval) : option (gmap string pyval) :=
  match v with
  | VRef l =>
      match heap σ !! l with
      | Some (Widget c' attrs) => if decide (c' = c) then Some attrs else None
      | _ => None
      end
  | _ => None
  end.

Definition list_attr (attrs : gmap string pyval) (name : string) : option (list pyval) :=
  match attrs !! name with
  | Some (VList vs) => Some vs
  | _ => None
  end.

(** The string shown by a text widget. *)
Definition text_of (σ : store) (v : pyval) : option string :=
  attrs ← widget_at σ ft_Text v;
  match attrs !! "value" with
  | Some (VStr s) => Some s
  | _ => None
  end.

(** The display lines of a column of text widgets, top to bottom. *)
Definition lines (σ : store) (column : pyval) : option (list string) :=
  attrs ← widget_at σ ft_Column column;
  controls ← list_attr attrs "controls";
  mapM (text_of σ) controls.

Definition column_header (σ : store) (v : pyval) : option string :=
  attrs ← widget_at σ ft_DataColumn v;
  label ← attrs !! "label";
  text_of σ label.

Definition cell_text (σ : store) (v : pyval) : option string :=
  attrs ← widget_at σ ft_DataCell v;
  content ← attrs !! "content";
  text_of σ content.

Definition row_cells (σ : store) (v : pyval) : option (list string) :=
  attrs ← widget_at σ ft_DataRow v;
  cells ← list_attr attrs "cells";
  mapM (cell_text σ) cells.

(** The header texts of a data table, one per column, left to right. *)
Definition table_headers (σ : store) (table : pyval) : option (list string) :=
  attrs ← widget_at σ ft_DataTable table;
  columns ← list_attr attrs "columns";
  mapM (column_header σ) columns.

(** The cell texts of a data table, one list per row, top to bottom. *)
Definition table_rows (σ : store) (table : pyval) : option (list (list string)) :=
  attrs ← widget_at σ ft_DataTable table;
  rows ← list_attr attrs "rows";
  mapM (row_cells σ) rows.

(** The widget an adapter keeps in an attribute, for the fourteen classes
    whose [__init__] creates it; [None] for the five that create their
    widgets in [build]. *)
Definition wrapped_widget (c : component) : option loc :=
  match c with
  | Text w | Button w | Input w | Image w | Heading w | Paragraph w | Link w
  | Checkbox w | RadioGroup _ w | Dropdown w | Slider w | ProgressBar w
  | Tabs w | Alert w => Some w
  | Div _ | UnorderedList _ | OrderedList _ | Table _ _ | Form _ _ => None
  end.

(** An option of the widget that the adapter at [self] wraps. *)
Definition wrapped_attr (σ : store) (self : loc) (name : string) : option pyval :=
  match heap σ !! self with
  | Some (FlexComponent _ c) =>
      match wrapped_widget c with
      | Some w =>
          match heap σ !! w with
          | Some (Widget _ attrs) => attrs !! name
          | _ => None
          end
      | None => None
      end
  | _ => None
  end.

(** How [Tabs] is to treat one tab descriptor: [t] is what stands in the tab
    list for the descriptor [tab].  A [dict] is replaced by a tab object
    created after [σ0] from the entries of the [dict]; anything else is kept. *)
Definition normalized (σ0 σ' : store) (tab t : pyval) : Prop :=
  match tab with
  | VDict d =>
      ∃ l, t = VRef l ∧ length (heap σ0) ≤ l ∧ heap σ' !! l = Some (Widget ft_Tab d)
  | _ => t = tab
  end.

(** The bullet U+2022 alone. *)
Definition bullet : string :=
  String (Ascii.ascii_of_nat 226) (String (Ascii.ascii_of_nat 128)
  (String (Ascii.ascii_of_nat 162) "")).

(** [σ'] has the objects of [σ], unchanged, then possibly new ones, and the
    same redisplay requests. *)
Definition extends (σ σ' : store) : Prop :=
  heap σ `prefix_of` heap σ' ∧ redisplays σ' = redisplays σ.

(** The adapter at [self] has a [value] property, and the widget behind it
    holds [v] as its [value]. *)
Definition mirrors (σ : store) (self : loc) (v : pyval) : Prop :=
  ∃ kwargs c w cls attrs,
    heap σ !! self = Some (FlexComponent kwargs c) ∧ value_widget c = Some w ∧
    heap σ !! w = Some (Widget cls attrs) ∧ attrs !! "value" = Some v.

(** The keywords that [build] writes out in the toolkit call that also
    receives the configuration bag. *)
Definition build_keywords (c : component) : list string :=
  match c with
  | Div _ | Form _ _ => ["content"]
  | UnorderedList _ | OrderedList _ => ["controls"]
  | Table _ _ => ["columns"; "rows"]
  | _ => []
  end.

(** The classes whose [build] creates the widgets it returns. *)
Definition creates_in_build (c : ctor) : bool :=
  match c with
  | CallDiv _ _ | CallUnorderedList _ _ | CallOrderedList _ _
  | CallTable _ _ _ | CallForm _ _ _ => true
  | _ => false
  end.

(** However often [build] is called on the adapter that [c] constructs, it
    returns one and the same widget. *)
Definition builds_one_widget (c : ctor) : Prop :=
  ∀ σ self σ1, construct c σ = Ok self σ1 →
    ∃ w, ∀ n ws σ2, build_n n self σ1 = Ok ws σ2 → ws = replicate n (VRef w).

(** [m] only allocates: a run that returns leaves the earlier objects and
    the redisplay requests as they were. *)
Definition allocates {A} (m : M A) : Prop :=
  ∀ σ a σ', m σ = Ok a σ' → extends σ σ'.

(** [m] returns a widget that it has created itself. *)
Definition returns_fresh (m : M pyval) : Prop :=
  ∀ σ v σ', m σ = Ok v σ' →
    ∃ w, v = VRef w ∧ length (heap σ) ≤ w < length (heap σ').

(** [m], run in [σ], returns a result and a store that satisfy [Q], having
    only allocated. *)
Definition returns {A} (m : M A) (σ : store) (Q : A → store → Prop) : Prop :=
  ∃ a σ', m σ = Ok a σ' ∧ extends σ σ' ∧ Q a σ'.

(** ** Further observations *)

(** The configuration bag of a constructor call. *)
Definition ctor_kwargs (c : ctor) : gmap string pyval :=
  match c with
  | CallText _ kwargs | CallButton _ _ _ kwargs | CallInput _ kwargs
  | CallDiv _ kwargs | CallImage _ kwargs | CallHeading _ _ kwargs
  | CallParagraph _ kwargs | CallLink _ _ kwargs | CallUnorderedList _ kwargs
  | CallOrderedList _ kwargs | CallTable _ _ kwargs | CallForm _ _ kwargs
  | CallCheckbox _ _ kwargs | CallRadioGroup _ kwargs | CallDropdown _ kwargs
  | CallSlider _ _ _ kwargs | CallProgressBar _ kwargs | CallTabs _ kwargs
  | CallAlert _ _ kwargs => kwargs
  end.

(** The parameter names that a constructor gives a value to in the toolkit
    call that also receives the configuration bag; none for the five classes
    whose [__init__] calls no toolkit constructor. *)
Definition ctor_keywords (c : ctor) : list string :=
  match c with
  | CallText _ _ | CallParagraph _ _ | CallProgressBar _ _ => ["value"]
  | CallButton _ _ _ _ => ["text"; "style"; "on_click"]
  | CallInput _ _ => ["hint_text"]
  | CallImage _ _ => ["src"]
  | CallHeading _ _ _ => ["value"; "size"; "weight"]
  | CallLink _ _ _ => ["text"; "url"]
  | CallCheckbox _ _ _ => ["label"; "value"]
  | CallRadioGroup _ _ => ["content"]
  | CallDropdown _ _ => ["options"]
  | CallSlider _ _ _ _ => ["min"; "max"; "value"]
  | CallTabs _ _ => ["tabs"]
  | CallAlert _ _ _ => ["content"; "bgcolor"; "padding"; "border_radius"]
  | CallDiv _ _ | CallUnorderedList _ _ | CallOrderedList _ _
  | CallTable _ _ _ | CallForm _ _ _ => []
  end.

(** The bag [kw] has an entry under one of the names [ks]. *)
Definition repeats (kw : gmap string pyval) (ks : list string) : bool :=
  existsb (λ k, match kw !! k with Some _ => true | None => false end) ks.

Definition is_dict (v : pyval) : bool :=
  match v with
  | VDict _ => true
  | _ => false
  end.

(** The [value] and the [label] of a radio button. *)
Definition radio_of (σ : store) (v : pyval) : option (pyval * pyval) :=
  attrs ← widget_at σ ft_Radio v;
  value ← attrs !! "value";
  label ← attrs !! "label";
  Some (value, label).

(** The radio buttons of the radio group that the adapter at [self] wraps:
    those of the column that is the group's content, top to bottom. *)
Definition radio_group_radios (σ : store) (self : loc) : option (list (pyval * pyval)) :=
  content ← wrapped_attr σ self "content";
  attrs ← widget_at σ ft_Column content;
  radios ← list_attr attrs "controls";
  mapM (radio_of σ) radios.

(** The keys of the menu entries of the dropdown that the adapter at [self]
    wraps, in order. *)
Definition dropdown_option_keys (σ : store) (self : loc) : option (list pyval) :=
  options ← wrapped_attr σ self "options";
  match options with
  | VList opts =>
      mapM (λ o, attrs ← widget_at σ ft_dropdown_Option o; attrs !! "key") opts
  | _ => None
  end.

(** [mirrors], naming the widget. *)
Definition mirrors_at (σ : store) (self w : loc) (v : pyval) : Prop :=
  ∃ kwargs c cls attrs,
    heap σ !! self = Some (FlexComponent kwargs c) ∧ value_widget c = Some w ∧
    heap σ !! w = Some (Widget cls attrs) ∧ attrs !! "value" = Some v.

(** The seven classes that define the [value] property. *)
Definition value_bearing (c : ctor) : bool :=
  match c with
  | CallText _ _ | CallInput _ _ | CallCheckbox _ _ _ | CallRadioGroup _ _
  | CallDropdown _ _ | CallSlider _ _ _ _ | CallProgressBar _ _ => true
  | _ => false
  end.

(** The adapter at [self] has a [value] property, [w] is the widget behind
    it, and the property reads as [v]. *)
Definition reads_at (σ : store) (self w : loc) (v : pyval) : Prop :=
  ∃ kwargs c cls attrs,
    heap σ !! self = Some (FlexComponent kwargs c) ∧ value_widget c = Some w ∧
    heap σ !! w = Some (Widget cls attrs) ∧ default VNone (attrs !! "value") = v.

(** The named parameters of each [__init__], [self] included.  Python binds
    a keyword argument of one of these names to the parameter, so that the
    configuration bag of a call never has an entry under them. *)
Definition ctor_params (c : ctor) : list string :=
  "self" ::
  match c with
  | CallText _ _ | CallParagraph _ _ => ["text"]
  | CallButton _ _ _ _ => ["text"; "color"; "on_click"]
  | CallInput _ _ => ["placeholder"]
  | CallImage _ _ => ["src"]
  | CallHeading _ _ _ => ["level"; "text"]
  | CallLink _ _ _ => ["text"; "url"]
  | CallTable _ _ _ => ["headers"; "rows"]
  | CallForm _ _ _ => ["on_submit"]
  | CallCheckbox _ _ _ => ["label"; "value"]
  | CallSlider _ _ _ _ => ["min"; "max"; "value"]
  | CallProgressBar _ _ => ["value"]
  | CallAlert _ _ _ => ["text"; "severity"]
  | CallDiv _ _ | CallUnorderedList _ _ | CallOrderedList _ _
  | CallRadioGroup _ _ | CallDropdown _ _ | CallTabs _ _ => []
  end.

(** The parameter names that [build] writes out in the toolkit call that
    receives the configuration bag, by constructor call. *)
Definition ctor_build_keywords (c : ctor) : list string :=
  match c with
  | CallDiv _ _ | CallForm _ _ _ => ["content"]
  | CallUnorderedList _ _ | CallOrderedList _ _ => ["controls"]
  | CallTable _ _ _ => ["columns"; "rows"]
  | _ => []
  end.

(** * Proofs *)

(** ** The monad *)

Lemma bind_Ok {A B} (m : M A) (k : A → M B) σ b σ2 :
  (m ≫= k) σ = Ok b σ2 ↔ ∃ a σ1, m σ = Ok a σ1 ∧ k a σ1 = Ok b σ2.
Proof.
  unfold mbind, M_bind. destruct (m σ) as [a σ1|e]; split.
  - eauto.
  - intros (a' & σ1' & Heq & Hk). by simplify_eq.
  - done.
  - by intros (? & ? & ? & ?).
Qed.

Lemma bind_eq {A B} (m : M A) (k : A → M B) σ a σ1 :
  m σ = Ok a σ1 → (m ≫= k) σ = k a σ1.
Proof. unfold mbind, M_bind. by intros ->. Qed.

Lemma ret_Ok {A} (a b : A) σ σ' : mret (M := M) a σ = Ok b σ' ↔ a = b ∧ σ = σ'.
Proof. unfold mret, M_ret. naive_solver. Qed.

#[export] Instance extends_preorder : PreOrder extends.
Proof.
  split.
  - by intros σ.
  - intros σ1 σ2 σ3 [H12 E12] [H23 E23]. split; [by etrans | congruence].
Qed.

Lemma extends_push o σ : extends σ (push o σ).
Proof. split; [by apply prefix_app_r | done]. Qed.

Lemma extends_length σ σ' : extends σ σ' → length (heap σ) ≤ length (heap σ').
Proof. intros [H _]. by apply prefix_length. Qed.

Lemma extends_lookup σ σ' l o :
  extends σ σ' → heap σ !! l = Some o → heap σ' !! l = Some o.
Proof. intros [H _] Hl. by eapply prefix_lookup_Some. Qed.

Lemma push_lookup_new o σ : heap (push o σ) !! length (heap σ) = Some o.
Proof. simpl. by rewrite lookup_app_r, Nat.sub_diag. Qed.

Lemma push_length o σ : length (heap (push o σ)) = S (length (heap σ)).
Proof. simpl. rewrite length_app. simpl. lia. Qed.

(** ** Calls of toolkit constructors *)

Lemma ft_new_Ok c named kw σ l σ' :
  ft_new c named kw σ = Ok l σ' ↔
  no_collision named kw = true ∧ l = length (heap σ) ∧
  σ' = push (Widget c (bind_args named kw)) σ.
Proof.
  unfold ft_new. destruct (no_collision named kw); unfold alloc, raise; naive_solver.
Qed.

Lemma ft_new_collision c named kw σ :
  no_collision named kw = false → ft_new c named kw σ = Raise TypeError.
Proof. unfold ft_new. by intros ->. Qed.

Lemma no_collision_empty named : no_collision named ∅ = true.
Proof. unfold no_collision. apply forallb_forall. intros kv _. by rewrite lookup_empty. Qed.

(** ** Rules for [returns] *)

Lemma returns_ret {A} (a : A) σ Q : Q a σ → returns (mret a) σ Q.
Proof. intros. by exists a, σ. Qed.

Lemma returns_bind {A B} (m : M A) (k : A → M B) σ Q :
  returns m σ (λ a σ1, returns (k a) σ1 Q) → returns (m ≫= k) σ Q.
Proof.
  intros (a & σ1 & Hm & H1 & b & σ2 & Hk & H2 & HQ).
  exists b, σ2. split; [|split; [by etrans | done]].
  by rewrite (bind_eq _ _ _ _ _ Hm).
Qed.

Lemma returns_mono {A} (m : M A) σ (Q Q' : A → store → Prop) :
  returns m σ Q → (∀ a σ', extends σ σ' → Q a σ' → Q' a σ') → returns m σ Q'.
Proof. intros (a & σ' & ? & ? & ?) HQ. exists a, σ'. eauto. Qed.

Lemma returns_ft_new c named kw σ (Q : loc → store → Prop) :
  no_collision named kw = true →
  Q (length (heap σ)) (push (Widget c (bind_args named kw)) σ) →
  returns (ft_new c named kw) σ Q.
Proof.
  intros Hn HQ. eexists _, _. split; [by apply ft_new_Ok|].
  split; [apply extends_push | done].
Qed.

(** A comprehension returns, element for element, what its body returns,
    provided what is known of an element survives later allocations. *)
Lemma returns_comprehension {A B} (f : A → M B) (I : A → B → store → Prop) xs σ0 :
  (∀ x y σ σ', I x y σ → extends σ σ' → I x y σ') →
  (∀ x σ, x ∈ xs → extends σ0 σ → returns (f x) σ (I x)) →
  returns (comprehension f xs) σ0 (λ ys σ', Forall2 (λ x y, I x y σ') xs ys).
Proof.
  intros Hstable. revert σ0. induction xs as [|x xs IH]; intros σ0 Hf; simpl.
  - apply returns_ret. constructor.
  - apply returns_bind.
    eapply returns_mono; [apply Hf; [left | done]|].
    intros y σ1 H01 Hy. apply returns_bind.
    eapply returns_mono.
    { apply IH. intros x' σ Hx' H1. apply Hf; [by right | by etrans]. }
    intros ys σ2 H12 Hys. apply returns_ret. constructor; eauto.
Qed.

(** ** Constructors that wrap one widget *)

Lemma lookup_push_1 o1 o2 σ :
  heap (push o2 (push o1 σ)) !! length (heap σ) = Some o1.
Proof.
  apply (extends_lookup (push o1 σ)); [apply extends_push | apply push_lookup_new].
Qed.

Lemma lookup_push_2 o1 o2 σ :
  heap (push o2 (push o1 σ)) !! S (length (heap σ)) = Some o2.
Proof. rewrite <- (push_length o1 σ). apply push_lookup_new. Qed.

(** The shape shared by the constructors that create their widget with one
    toolkit call: the widget, then the adapter that keeps it. *)
Lemma wrap_eq c named kw (mk : loc → component) σ :
  no_collision named kw = true →
  (w ← ft_new c named kw; new_component kw (mk w)) σ =
  Ok (S (length (heap σ)))
     (push (FlexComponent kw (mk (length (heap σ))))
        (push (Widget c (bind_args named kw)) σ)).
Proof.
  intros Hn. erewrite bind_eq by by apply ft_new_Ok.
  unfold new_component, alloc. by rewrite push_length.
Qed.

Lemma wrap_Ok c named kw (mk : loc → component) σ self σ' :
  (w ← ft_new c named kw; new_component kw (mk w)) σ = Ok self σ' →
  no_collision named kw = true ∧ self = S (length (heap σ)) ∧
  σ' = push (FlexComponent kw (mk (length (heap σ))))
         (push (Widget c (bind_args named kw)) σ).
Proof.
  intros H. destruct (no_collision named kw) eqn:Hn.
  - rewrite (wrap_eq _ _ _ _ _ Hn) in H. by simplify_eq.
  - unfold mbind, M_bind in H. by rewrite ft_new_collision in H.
Qed.

Lemma wrapped_attr_wrap c named kw mk σ name w :
  wrapped_widget (mk (length (heap σ))) = Some w → w = length (heap σ) →
  wrapped_attr
    (push (FlexComponent kw (mk (length (heap σ))))
       (push (Widget c (bind_args named kw)) σ))
    (S (length (heap σ))) name
  = bind_args named kw !! name.
Proof.
  intros Hw ->. unfold wrapped_attr.
  by rewrite lookup_push_2, Hw, lookup_push_1.
Qed.

Lemma sizes_default (level : Z) :
  (level < 1 ∨ 6 < level)%Z → sizes !! level = None.
Proof.
  intros H. unfold sizes.
  rewrite !lookup_insert_ne by lia. apply lookup_empty.
Qed.

Lemma colors_default (severity : string) :
  severity ≠ "info" → severity ≠ "success" → severity ≠ "warning" →
  severity ≠ "error" → colors !! severity = None.
Proof.
  intros. unfold colors.
  rewrite !lookup_insert_ne by done. apply lookup_empty.
Qed.

(** C1.  A Heading whose configuration bag does not name [value], [size] or
    [weight] again is constructed, and the text widget it wraps is bold and
    has the size of the table for the levels 1 to 6: 32, 24, 18.72, 16, 13.28,
    10.72; for every other integer level the size is 16. *)
Theorem Heading_size_and_weight (level : Z) (text : pyval)
    (kwargs : gmap string pyval) (σ : store) :
  kwargs !! "value" = None → kwargs !! "size" = None → kwargs !! "weight" = None →
  ∃ self σ', new_Heading level text kwargs σ = Ok self σ' ∧
    wrapped_attr σ' self "weight" = Some (VStr "bold") ∧
    ∃ size, wrapped_attr σ' self "size" = Some size ∧
      (level = 1 → size = VInt 32)%Z ∧ (level = 2 → size = VInt 24)%Z ∧
      (level = 3 → size = VFloat 18.72)%Z ∧ (level = 4 → size = VInt 16)%Z ∧
      (level = 5 → size = VFloat 13.28)%Z ∧ (level = 6 → size = VFloat 10.72)%Z ∧
      ((level < 1 ∨ 6 < level)%Z → size = VInt 16).
Proof.
  intros Hv Hs Hw. eexists _, _. split.
  { unfold new_Heading. apply wrap_eq. simpl. by rewrite Hv, Hs, Hw. }
  rewrite !(wrapped_attr_wrap _ _ _ Heading _ _ _ eq_refl eq_refl). simpl.
  split; [by simplify_map_eq|].
  eexists. split; [by simplify_map_eq|].
  repeat split; try (by intros ->).
  intros Hout. by rewrite sizes_default.
Qed.

Lemma Heading_size_and_weight_witness :
  ∃ self σ', new_Heading 3 (VStr "Title") {["color" := VStr "red"]} empty_store
             = Ok self σ' ∧
    wrapped_attr σ' self "weight" = Some (VStr "bold") ∧
    ∃ size, wrapped_attr σ' self "size" = Some size ∧
      (3 = 1 → size = VInt 32)%Z ∧ (3 = 2 → size = VInt 24)%Z ∧
      (3 = 3 → size = VFloat 18.72)%Z ∧ (3 = 4 → size = VInt 16)%Z ∧
      (3 = 5 → size = VFloat 13.28)%Z ∧ (3 = 6 → size = VFloat 10.72)%Z ∧
      ((3 < 1 ∨ 6 < 3)%Z → size = VInt 16).
Proof.
  apply (Heading_size_and_weight 3 (VStr "Title") {["color" := VStr "red"]}
           empty_store); reflexivity.
Defined.

(** A Heading is constructed exactly when its configuration bag repeats none
    of the three arguments; otherwise the toolkit call raises [TypeError]. *)
Lemma Heading_constructed_iff level text kwargs σ :
  (∃ self σ', new_Heading level text kwargs σ = Ok self σ') ↔
  kwargs !! "value" = None ∧ kwargs !! "size" = None ∧ kwargs !! "weight" = None.
Proof.
  split.
  - intros (self & σ' & (Hn & _)%wrap_Ok). simpl in Hn.
    by destruct (kwargs !! "value"), (kwargs !! "size"), (kwargs !! "weight").
  - intros (Hv & Hs & Hw). eexists _, _. apply wrap_eq. simpl. by rewrite Hv, Hs, Hw.
Qed.

(** C2.  An Alert whose configuration bag does not name [content], [bgcolor],
    [padding] or [border_radius] again is constructed, and the container it
    wraps has padding 10, border radius 5 and the background colour of the
    mapping: info blue, success green, warning orange, error red; for every
    other severity string the colour is that of info. *)
Theorem Alert_bgcolor (text : pyval) (severity : string)
    (kwargs : gmap string pyval) (σ : store) :
  kwargs !! "content" = None → kwargs !! "bgcolor" = None →
  kwargs !! "padding" = None → kwargs !! "border_radius" = None →
  ∃ self σ', new_Alert text severity kwargs σ = Ok self σ' ∧
    wrapped_attr σ' self "padding" = Some (VInt 10) ∧
    wrapped_attr σ' self "border_radius" = Some (VInt 5) ∧
    ∃ bgcolor, wrapped_attr σ' self "bgcolor" = Some bgcolor ∧
      (severity = "info" → bgcolor = VColor BLUE) ∧
      (severity = "success" → bgcolor = VColor GREEN) ∧
      (severity = "warning" → bgcolor = VColor ORANGE) ∧
      (severity = "error" → bgcolor = VColor RED) ∧
      (severity ≠ "info" → severity ≠ "success" → severity ≠ "warning" →
       severity ≠ "error" → bgcolor = VColor BLUE).
Proof.
  intros Hc Hb Hp Hr. eexists _, _. split.
  { unfold new_Alert. erewrite bind_eq.
    2:{ apply ft_new_Ok. split; [apply no_collision_empty | done]. }
    apply wrap_eq. simpl. by rewrite Hc, Hb, Hp, Hr. }
  rewrite !(wrapped_attr_wrap _ _ _ Alert _ _ _ eq_refl eq_refl). simpl.
  split; [by simplify_map_eq|]. split; [by simplify_map_eq|].
  eexists. split; [by simplify_map_eq|].
  repeat split; try (by intros ->).
  intros. by rewrite colors_default.
Qed.

Lemma Alert_bgcolor_witness :
  ∃ self σ', new_Alert (VStr "Saved") "success" ∅ empty_store = Ok self σ' ∧
    wrapped_attr σ' self "padding" = Some (VInt 10) ∧
    wrapped_attr σ' self "border_radius" = Some (VInt 5) ∧
    ∃ bgcolor, wrapped_attr σ' self "bgcolor" = Some bgcolor ∧
      ("success" = "info" → bgcolor = VColor BLUE) ∧
      ("success" = "success" → bgcolor = VColor GREEN) ∧
      ("success" = "warning" → bgcolor = VColor ORANGE) ∧
      ("success" = "error" → bgcolor = VColor RED) ∧
      ("success" ≠ "info" → "success" ≠ "success" → "success" ≠ "warning" →
       "success" ≠ "error" → bgcolor = VColor BLUE).
Proof.
  apply (Alert_bgcolor (VStr "Saved") "success" ∅ empty_store); reflexivity.
Defined.

(** An Alert is constructed exactly when its configuration bag repeats none
    of the four arguments. *)
Lemma Alert_constructed_iff text severity kwargs σ :
  (∃ self σ', new_Alert text severity kwargs σ = Ok self σ') ↔
  kwargs !! "content" = None ∧ kwargs !! "bgcolor" = None ∧
  kwargs !! "padding" = None ∧ kwargs !! "border_radius" = None.
Proof.
  split.
  - intros (self & σ' & Hrun). unfold new_Alert in Hrun.
    apply bind_Ok in Hrun as (content & σa & _ & (Hn & _)%wrap_Ok). simpl in Hn.
    by destruct (kwargs !! "content"), (kwargs !! "bgcolor"),
         (kwargs !! "padding"), (kwargs !! "border_radius").
  - intros (Hc & Hb & Hp & Hr). eexists _, _. unfold new_Alert.
    erewrite bind_eq by (apply ft_new_Ok; split; [apply no_collision_empty | done]).
    apply wrap_eq. simpl. by rewrite Hc, Hb, Hp, Hr.
Qed.

(** ** [build] of the classes that create their widgets there *)

Lemma self_of_eq self kwargs c σ :
  heap σ !! self = Some (FlexComponent kwargs c) → self_of self σ = Ok (kwargs, c) σ.
Proof. unfold self_of. by intros ->. Qed.

Lemma build_eq self kwargs c σ :
  heap σ !! self = Some (FlexComponent kwargs c) →
  build self σ =
  match c with
  | Div controls => Div_build kwargs controls σ
  | UnorderedList items => UnorderedList_build kwargs items σ
  | OrderedList items => OrderedList_build kwargs items σ
  | Table headers rows => Table_build kwargs headers rows σ
  | Form controls on_submit => Form_build kwargs controls on_submit σ
  | _ => match wrapped_widget c with
         | Some w => Ok (VRef w) σ
         | None => Raise AttributeError
         end
  end.
Proof.
  intros Hself. unfold build.
  rewrite (bind_eq _ _ _ _ _ (self_of_eq _ _ _ _ Hself)). by destruct c.
Qed.

(** One toolkit call, [tac] showing that no argument is given twice. *)
Ltac call_with tac :=
  erewrite bind_eq by (apply ft_new_Ok; split; [tac | done]);
  rewrite ?push_length.
Ltac call_empty := call_with ltac:(apply no_collision_empty).

Lemma Div_build_eq kwargs controls σ :
  kwargs !! "content" = None →
  Div_build kwargs controls σ =
  Ok (VRef (S (length (heap σ))))
     (push (Widget ft_Container (<["content" := VRef (length (heap σ))]> kwargs))
        (push (Widget ft_Column {["controls" := VList controls]}) σ)).
Proof.
  intros Hc. unfold Div_build.
  call_empty. by call_with ltac:(simpl; by rewrite Hc).
Qed.

Lemma Form_build_eq kwargs controls on_submit σ :
  kwargs !! "content" = None →
  Form_build kwargs controls on_submit σ =
  Ok (VRef (S (S (length (heap σ)))))
     (push (Widget ft_Container (<["content" := VRef (S (length (heap σ)))]> kwargs))
        (push (Widget ft_Column
                 {["controls" := VList (controls ++ [VRef (length (heap σ))])]})
           (push (Widget ft_ElevatedButton
                    (<["text" := VStr "Submit"]> {["on_click" := on_submit]})) σ))).
Proof.
  intros Hc. unfold Form_build.
  call_empty. call_empty. by call_with ltac:(simpl; by rewrite Hc).
Qed.

(** [build] of a Div whose configuration bag does not name [content]
    again returns a container that holds the whole bag, with the column as
    its content; the column holds the child components and nothing else. *)
Lemma Div_build_kwargs_on_container (self : loc) (controls : list pyval)
    (kwargs : gmap string pyval) (σ : store) :
  heap σ !! self = Some (FlexComponent kwargs (Div controls)) →
  kwargs !! "content" = None →
  ∃ container column σ', build self σ = Ok (VRef container) σ' ∧
    heap σ' !! container
      = Some (Widget ft_Container (<["content" := VRef column]> kwargs)) ∧
    heap σ' !! column = Some (Widget ft_Column {["controls" := VList controls]}).
Proof.
  intros Hself Hc. exists (S (length (heap σ))), (length (heap σ)). eexists.
  rewrite (build_eq _ _ _ _ Hself). cbv beta iota.
  split; [by apply Div_build_eq|].
  split; [apply lookup_push_2 | apply lookup_push_1].
Qed.

(** A Div whose configuration bag names [content] cannot be built. *)
Lemma Div_content_given_twice self controls kwargs σ v :
  heap σ !! self = Some (FlexComponent kwargs (Div controls)) →
  kwargs !! "content" = Some v →
  build self σ = Raise TypeError.
Proof.
  intros Hself Hc. rewrite (build_eq _ _ _ _ Hself). cbv beta iota.
  unfold Div_build. call_empty. unfold mbind, M_bind.
  rewrite ft_new_collision; [done|]. simpl. by rewrite Hc.
Qed.

(** [build] of a Form whose configuration bag does not name [content]
    again returns a container whose content is a column; the controls of the
    column are the children, in order, then one button with the text
    "Submit" and the submit handler as its click handler. *)
Lemma Form_build_children_then_submit (self : loc) (controls : list pyval)
    (on_submit : pyval) (kwargs : gmap string pyval) (σ : store) :
  heap σ !! self = Some (FlexComponent kwargs (Form controls on_submit)) →
  kwargs !! "content" = None →
  ∃ container column submit σ', build self σ = Ok (VRef container) σ' ∧
    heap σ' !! container
      = Some (Widget ft_Container (<["content" := VRef column]> kwargs)) ∧
    heap σ' !! column
      = Some (Widget ft_Column {["controls" := VList (controls ++ [VRef submit])]}) ∧
    heap σ' !! submit
      = Some (Widget ft_ElevatedButton
                (<["text" := VStr "Submit"]> {["on_click" := on_submit]})).
Proof.
  intros Hself Hc.
  exists (S (S (length (heap σ)))), (S (length (heap σ))), (length (heap σ)).
  eexists. rewrite (build_eq _ _ _ _ Hself). cbv beta iota.
  split; [by apply Form_build_eq|].
  set (submit := Widget ft_ElevatedButton
                   (<["text" := VStr "Submit"]> {["on_click" := on_submit]})).
  split; [|split].
  - rewrite <- (push_length submit σ). apply lookup_push_2.
  - rewrite <- (push_length submit σ). apply lookup_push_1.
  - eapply extends_lookup; [apply extends_push | apply lookup_push_1].
Qed.

(** ** What is read from a tree survives later allocations *)

Lemma widget_at_extends σ σ' c v attrs :
  extends σ σ' → widget_at σ c v = Some attrs → widget_at σ' c v = Some attrs.
Proof.
  intros Hext. unfold widget_at. destruct v as [| | | | | | |l| |]; try done.
  destruct (heap σ !! l) as [o|] eqn:Hl; [|done].
  by rewrite (extends_lookup _ _ _ _ Hext Hl).
Qed.

Lemma text_of_extends σ σ' v s :
  extends σ σ' → text_of σ v = Some s → text_of σ' v = Some s.
Proof.
  intros Hext. unfold text_of.
  destruct (widget_at σ ft_Text v) as [attrs|] eqn:Hw; [|done].
  by rewrite (widget_at_extends _ _ _ _ _ Hext Hw).
Qed.

Lemma column_header_extends σ σ' v s :
  extends σ σ' → column_header σ v = Some s → column_header σ' v = Some s.
Proof.
  intros Hext. unfold column_header.
  destruct (widget_at σ ft_DataColumn v) as [attrs|] eqn:Hw; [|done].
  rewrite (widget_at_extends _ _ _ _ _ Hext Hw). simpl.
  destruct (attrs !! "label"); [simpl; by apply text_of_extends | done].
Qed.

Lemma cell_text_extends σ σ' v s :
  extends σ σ' → cell_text σ v = Some s → cell_text σ' v = Some s.
Proof.
  intros Hext. unfold cell_text.
  destruct (widget_at σ ft_DataCell v) as [attrs|] eqn:Hw; [|done].
  rewrite (widget_at_extends _ _ _ _ _ Hext Hw). simpl.
  destruct (attrs !! "content"); [simpl; by apply text_of_extends | done].
Qed.

Lemma mapM_extends {A} (f g : pyval → option A) vs xs :
  (∀ v x, f v = Some x → g v = Some x) →
  mapM f vs = Some xs → mapM g vs = Some xs.
Proof.
  intros Hfg. rewrite !mapM_Some. intros H.
  eapply Forall2_impl; [exact H | auto].
Qed.

Lemma row_cells_extends σ σ' v cells :
  extends σ σ' → row_cells σ v = Some cells → row_cells σ' v = Some cells.
Proof.
  intros Hext. unfold row_cells.
  destruct (widget_at σ ft_DataRow v) as [attrs|] eqn:Hw; [|done].
  rewrite (widget_at_extends _ _ _ _ _ Hext Hw). simpl.
  destruct (list_attr attrs "cells"); [simpl | done].
  apply mapM_extends. intros ??. by apply cell_text_extends.
Qed.

Lemma widget_at_new c attrs σ :
  widget_at (push (Widget c attrs) σ) c (VRef (length (heap σ))) = Some attrs.
Proof. unfold widget_at. rewrite push_lookup_new. by rewrite decide_True. Qed.

(** From what is known of each element to what [mapM] reads. *)
Lemma Forall2_mapM {A B} (f : pyval → option B) (g : A → B) (xs : list A) vs :
  Forall2 (λ x v, f v = Some (g x)) xs vs → mapM f vs = Some (g <$> xs).
Proof.
  intros H. apply mapM_Some. apply Forall2_fmap_r, Forall2_flip.
  eapply Forall2_impl; [done|]. auto.
Qed.

(** ** Lists *)

Lemma ft_Text_of_returns s σ :
  returns (ft_Text_of s) σ (λ v σ', text_of σ' v = Some s).
Proof.
  unfold ft_Text_of. apply returns_bind.
  apply returns_ft_new; [apply no_collision_empty|].
  apply returns_ret. unfold text_of. by rewrite widget_at_new.
Qed.

(** A column of text widgets made by a comprehension shows one line per
    element, in order. *)
Lemma text_column_returns {A} (line : A → string) (xs : list A) kwargs σ :
  kwargs !! "controls" = None →
  returns (controls ← comprehension (λ x, ft_Text_of (line x)) xs;
           column ← ft_new ft_Column [("controls", VList controls)] kwargs;
           mret (VRef column)) σ
    (λ column σ', lines σ' column = Some (line <$> xs)).
Proof.
  intros Hc. apply returns_bind.
  eapply returns_mono.
  { apply (returns_comprehension _ (λ x v σ', text_of σ' v = Some (line x))).
    - intros x v σ1 σ2 H ?. by eapply text_of_extends.
    - intros x σ1 _ _. apply ft_Text_of_returns. }
  intros controls σ1 _ Hcontrols. apply returns_bind.
  apply returns_ft_new; [simpl; by rewrite Hc|].
  apply returns_ret. unfold lines. rewrite widget_at_new. simpl.
  unfold list_attr. rewrite lookup_insert_eq. simpl.
  apply Forall2_mapM. eapply Forall2_impl; [exact Hcontrols|].
  intros x v H. eapply text_of_extends; [apply extends_push | exact H].
Qed.

Lemma comprehension_ext {A B} (f g : A → M B) xs :
  (∀ x, f x = g x) → comprehension f xs = comprehension g xs.
Proof. intros Hfg. induction xs as [|x xs IH]; simpl; [done|]. by rewrite Hfg, IH. Qed.

Lemma enumerate_from_fmap {A B} (g : nat → A → B) k (xs : list A) :
  (λ '(i, x), g i x) <$> enumerate_from k xs = imap (λ i, g (k + i)) xs.
Proof.
  revert k. induction xs as [|x xs IH]; intros k; simpl; [done|].
  rewrite Nat.add_0_r. f_equal. rewrite IH. apply imap_ext.
  intros i y _. simpl. f_equal. lia.
Qed.

Lemma UnorderedList_build_returns kwargs (items : list string) σ :
  kwargs !! "controls" = None →
  returns (UnorderedList_build kwargs items) σ
    (λ column σ',
       lines σ' column = Some ((λ item, UnorderedList_prefix +:+ item) <$> items)).
Proof.
  intros Hc.
  apply (text_column_returns (λ item, UnorderedList_prefix +:+ item) items kwargs σ Hc).
Qed.

Lemma OrderedList_build_returns kwargs (items : list string) σ :
  kwargs !! "controls" = None →
  returns (OrderedList_build kwargs items) σ
    (λ column σ',
       lines σ' column
         = Some (imap (λ i item, pretty (i + 1) +:+ ". " +:+ item) items)).
Proof.
  intros Hc.
  destruct (text_column_returns
              (λ '(i, item), pretty (i + 1) +:+ ". " +:+ item)
              (enumerate items) kwargs σ Hc) as (column & σ' & Hrun & Hext & Hlines).
  exists column, σ'. split; [|split; [done|]].
  - rewrite <- Hrun. unfold OrderedList_build. f_equal.
    apply comprehension_ext. by intros [i item].
  - rewrite Hlines. f_equal. unfold enumerate.
    by rewrite (enumerate_from_fmap (λ i item, pretty (i + 1) +:+ ". " +:+ item)).
Qed.

(** What [UnorderedList.build] shows, for any items: one line per item, in
    order, the prefix of the source and then the item. *)
Lemma UnorderedList_lines (self : loc) (items : list string)
    (kwargs : gmap string pyval) (σ : store) :
  heap σ !! self = Some (FlexComponent kwargs (UnorderedList items)) →
  kwargs !! "controls" = None →
  ∃ column σ', build self σ = Ok column σ' ∧
    lines σ' column = Some ((λ item, UnorderedList_prefix +:+ item) <$> items).
Proof.
  intros Hself Hc. rewrite (build_eq _ _ _ _ Hself). cbv beta iota.
  destruct (UnorderedList_build_returns kwargs items σ Hc)
    as (column & σ' & Hrun & _ & Hlines).
  by exists column, σ'.
Qed.

(** [build] of an OrderedList whose configuration bag does not name
    [controls] again returns a column with one line per item, in order; the
    line of the item at position [i], counted from 0, is the decimal numeral
    of [i + 1], a dot, a space, and the item. *)
Lemma OrderedList_build_lines (self : loc) (items : list string)
    (kwargs : gmap string pyval) (σ : store) :
  heap σ !! self = Some (FlexComponent kwargs (OrderedList items)) →
  kwargs !! "controls" = None →
  ∃ column σ', build self σ = Ok column σ' ∧
    lines σ' column
      = Some (imap (λ i item, pretty (i + 1) +:+ ". " +:+ item) items).
Proof.
  intros Hself Hc. rewrite (build_eq _ _ _ _ Hself). cbv beta iota.
  destruct (OrderedList_build_returns kwargs items σ Hc)
    as (column & σ' & Hrun & _ & Hlines).
  by exists column, σ'.
Qed.

(** C5, which the code departs from.  For the items "a" and "b", [build]
    returns a column of two lines, the prefix of the source before "a" and
    before "b"; the prefix is the seven bytes c3 a2 e2 82 ac c2 a2 and a
    space, and neither line starts with a bullet. *)
Theorem UnorderedList_a_b_lines :
  ∃ column σ' ls,
    build 0 (Store [FlexComponent ∅ (UnorderedList ["a"; "b"])] []) = Ok column σ' ∧
    lines σ' column = Some ls ∧
    ls = [UnorderedList_prefix +:+ "a"; UnorderedList_prefix +:+ "b"] ∧
    map Ascii.nat_of_ascii (String.list_ascii_of_string UnorderedList_prefix)
      = [195; 162; 226; 130; 172; 194; 162; 32] ∧
    Forall (λ l, String.prefix bullet l = false) ls.
Proof.
  destruct (UnorderedList_lines 0 ["a"; "b"] ∅
              (Store [FlexComponent ∅ (UnorderedList ["a"; "b"])] []))
    as (column & σ' & Hrun & Hlines); [done..|].
  exists column, σ'. eexists. split; [exact Hrun|]. split; [exact Hlines|].
  split; [done|]. split; [done|]. by repeat constructor.
Qed.

(** ** Table *)

Lemma mapM_Forall2 {A} (f : pyval → option A) (xs : list A) vs :
  Forall2 (λ x v, f v = Some x) xs vs → mapM f vs = Some xs.
Proof. intros H. apply mapM_Some. by apply Forall2_flip. Qed.

Lemma DataColumn_returns header σ :
  returns (label ← ft_Text_of header;
           c ← ft_new ft_DataColumn [("label", label)] ∅;
           mret (VRef c)) σ
    (λ v σ', column_header σ' v = Some header).
Proof.
  apply returns_bind. eapply returns_mono; [apply ft_Text_of_returns|].
  intros label σ1 _ Hlabel. apply returns_bind.
  apply returns_ft_new; [apply no_collision_empty|].
  apply returns_ret. unfold column_header. rewrite widget_at_new. simpl.
  rewrite lookup_insert_eq. simpl.
  eapply text_of_extends; [apply extends_push | exact Hlabel].
Qed.

Lemma DataCell_returns cell σ :
  returns (content ← ft_Text_of cell;
           c ← ft_new ft_DataCell [("content", content)] ∅;
           mret (VRef c)) σ
    (λ v σ', cell_text σ' v = Some cell).
Proof.
  apply returns_bind. eapply returns_mono; [apply ft_Text_of_returns|].
  intros content σ1 _ Hcontent. apply returns_bind.
  apply returns_ft_new; [apply no_collision_empty|].
  apply returns_ret. unfold cell_text. rewrite widget_at_new. simpl.
  rewrite lookup_insert_eq. simpl.
  eapply text_of_extends; [apply extends_push | exact Hcontent].
Qed.

Lemma DataRow_returns (row : list string) σ :
  returns (cells ← comprehension
                     (λ cell, content ← ft_Text_of cell;
                              c ← ft_new ft_DataCell [("content", content)] ∅;
                              mret (VRef c)) row;
           r ← ft_new ft_DataRow [("cells", VList cells)] ∅;
           mret (VRef r)) σ
    (λ v σ', row_cells σ' v = Some row).
Proof.
  apply returns_bind. eapply returns_mono.
  { apply (returns_comprehension _ (λ cell v σ', cell_text σ' v = Some cell)).
    - intros cell v σ1 σ2 H ?. by eapply cell_text_extends.
    - intros cell σ1 _ _. apply DataCell_returns. }
  intros cells σ1 _ Hcells. apply returns_bind.
  apply returns_ft_new; [apply no_collision_empty|].
  apply returns_ret. unfold row_cells. rewrite widget_at_new. simpl.
  unfold list_attr. rewrite lookup_insert_eq. simpl.
  apply mapM_Forall2. eapply Forall2_impl; [exact Hcells|].
  intros cell v H. eapply cell_text_extends; [apply extends_push | exact H].
Qed.

Lemma Table_build_returns kwargs (headers : list string)
    (rows : list (list string)) σ :
  kwargs !! "columns" = None → kwargs !! "rows" = None →
  returns (Table_build kwargs headers rows) σ
    (λ table σ', table_headers σ' table = Some headers ∧
                 table_rows σ' table = Some rows).
Proof.
  intros Hc Hr. unfold Table_build. apply returns_bind. eapply returns_mono.
  { apply (returns_comprehension _ (λ header v σ', column_header σ' v = Some header)).
    - intros header v σ1 σ2 H ?. by eapply column_header_extends.
    - intros header σ1 _ _. apply DataColumn_returns. }
  intros columns σ1 _ Hcolumns. apply returns_bind. eapply returns_mono.
  { apply (returns_comprehension _ (λ row v σ', row_cells σ' v = Some row)).
    - intros row v σ2 σ3 H ?. by eapply row_cells_extends.
    - intros row σ2 _ _. apply DataRow_returns. }
  intros rs σ2 H12 Hrows. apply returns_bind.
  apply returns_ft_new; [simpl; by rewrite Hc, Hr|].
  apply returns_ret. unfold table_headers, table_rows.
  rewrite widget_at_new. simpl. unfold list_attr.
  rewrite lookup_insert_eq, lookup_insert_ne, lookup_insert_eq by done. simpl.
  split; apply mapM_Forall2.
  - eapply Forall2_impl; [exact Hcolumns|]. intros header v H.
    eapply column_header_extends; [|exact H].
    etrans; [exact H12 | apply extends_push].
  - eapply Forall2_impl; [exact Hrows|]. intros row v H.
    eapply row_cells_extends; [apply extends_push | exact H].
Qed.

(** [build] of a Table whose configuration bag does not name [columns]
    or [rows] again returns a data table whose columns carry the header
    strings, one column per header in order, and whose rows carry the cell
    strings, one row per input row in order, each row with its cells in
    order. *)
Lemma Table_build_columns_and_rows (self : loc) (headers : list string)
    (rows : list (list string)) (kwargs : gmap string pyval) (σ : store) :
  heap σ !! self = Some (FlexComponent kwargs (Table headers rows)) →
  kwargs !! "columns" = None → kwargs !! "rows" = None →
  ∃ table σ', build self σ = Ok table σ' ∧
    table_headers σ' table = Some headers ∧
    table_rows σ' table = Some rows.
Proof.
  intros Hself Hc Hr. rewrite (build_eq _ _ _ _ Hself). cbv beta iota.
  destruct (Table_build_returns kwargs headers rows σ Hc Hr)
    as (table & σ' & Hrun & _ & Hh & Hrows).
  by exists table, σ'.
Qed.

(** ** Tabs *)

Lemma normalized_extends σ0 σ σ' tab t :
  extends σ σ' → normalized σ0 σ tab t → normalized σ0 σ' tab t.
Proof.
  intros Hext. destruct tab; simpl; try done.
  intros (l & -> & Hl & Hd). exists l. eauto using extends_lookup.
Qed.

Lemma normalize_tab_returns σ0 tab σ :
  extends σ0 σ → returns (normalize_tab tab) σ (λ t σ', normalized σ0 σ' tab t).
Proof.
  intros H0. destruct tab; simpl; try by apply returns_ret.
  apply returns_bind. apply returns_ft_new; [done|].
  apply returns_ret. simpl. eexists. split; [done|].
  split; [by apply extends_length | apply push_lookup_new].
Qed.

(** C9.  A Tabs whose configuration bag does not name [tabs] again is
    constructed, and the tab list of the widget it wraps has, position for
    position, a new tab object made from the entries of the descriptor where
    the descriptor is a [dict], and the descriptor itself where it is not. *)
Theorem Tabs_normalizes_descriptors (tabs : list pyval)
    (kwargs : gmap string pyval) (σ : store) :
  kwargs !! "tabs" = None →
  ∃ self σ' ts, new_Tabs tabs kwargs σ = Ok self σ' ∧
    wrapped_attr σ' self "tabs" = Some (VList ts) ∧
    Forall2 (normalized σ σ') tabs ts.
Proof.
  intros Ht.
  destruct (returns_comprehension normalize_tab (λ tab t σ', normalized σ σ' tab t)
              tabs σ) as (ts & σ1 & Hrun & H01 & Hts).
  { intros tab t σ1 σ2 H ?. by eapply normalized_extends. }
  { intros tab σ1 _ H. by apply normalize_tab_returns. }
  eexists _, _, ts. split.
  { unfold new_Tabs. rewrite (bind_eq _ _ _ _ _ Hrun).
    apply wrap_eq. simpl. by rewrite Ht. }
  rewrite (wrapped_attr_wrap _ _ _ Tabs _ _ _ eq_refl eq_refl). simpl.
  split; [by rewrite lookup_insert_eq|].
  eapply Forall2_impl; [exact Hts|]. intros tab t H.
  eapply normalized_extends; [|exact H].
  etrans; apply extends_push.
Qed.

Lemma Tabs_normalizes_descriptors_witness :
  ∃ self σ' ts,
    new_Tabs [VDict {["text" := VStr "Home"]}; VRef 0] ∅
      (Store [Widget ft_Tab {["text" := VStr "About"]}] []) = Ok self σ' ∧
    wrapped_attr σ' self "tabs" = Some (VList ts) ∧
    Forall2 (normalized (Store [Widget ft_Tab {["text" := VStr "About"]}] []) σ')
      [VDict {["text" := VStr "Home"]}; VRef 0] ts.
Proof.
  apply (Tabs_normalizes_descriptors [VDict {["text" := VStr "Home"]}; VRef 0] ∅
           (Store [Widget ft_Tab {["text" := VStr "About"]}] []));
    reflexivity.
Defined.

(** ** The [value] property *)

(** Reading: the widget's value, and the store as it was. *)
Lemma value_mirrors σ self v : mirrors σ self v → value self σ = Ok v σ.
Proof.
  intros (kw & c & w & cls & attrs & Hself & Hw & Hwidget & Hv).
  unfold value. rewrite (bind_eq _ _ _ _ _ (self_of_eq _ _ _ _ Hself)).
  rewrite Hw. unfold getattr. by rewrite Hwidget, Hv.
Qed.

(** Writing: the widget holds the new value, and one more redisplay is
    requested, by the adapter. *)
Lemma value_setter_mirrors σ self v0 v :
  mirrors σ self v0 →
  ∃ σ', value_setter self v σ = Ok tt σ' ∧ mirrors σ' self v ∧
    redisplays σ' = redisplays σ ++ [self].
Proof.
  intros (kw & c & w & cls & attrs & Hself & Hw & Hwidget & Hv).
  assert (w ≠ self) as Hne by (intros ->; congruence).
  eexists. split; [|split].
  - unfold value_setter. rewrite (bind_eq _ _ _ _ _ (self_of_eq _ _ _ _ Hself)).
    rewrite Hw. unfold setattr, update, mbind, M_bind. by rewrite Hwidget.
  - exists kw, c, w, cls, (<["value" := v]> attrs). simpl.
    rewrite list_lookup_insert_ne by done.
    rewrite list_lookup_insert_eq by (by eapply lookup_lt_Some).
    by rewrite lookup_insert_eq.
  - done.
Qed.

Lemma default_last_cons (v0 v : pyval) vs :
  default v0 (last (v :: vs)) = default v (last vs).
Proof.
  revert v0 v. induction vs as [|v' vs IH]; intros v0 v; [done|].
  change (last (v :: v' :: vs)) with (last (v' :: vs)).
  by rewrite (IH v0 v'), (IH v v').
Qed.

Lemma set_all_mirrors vs : ∀ σ self v0,
  mirrors σ self v0 →
  ∃ σ', set_all self vs σ = Ok tt σ' ∧ mirrors σ' self (default v0 (last vs)) ∧
    redisplays σ' = redisplays σ ++ replicate (length vs) self.
Proof.
  induction vs as [|v vs IH]; intros σ self v0 Hm; simpl.
  - exists σ. by rewrite app_nil_r.
  - destruct (value_setter_mirrors σ self v0 v Hm) as (σ1 & Hset & Hm1 & Hr1).
    destruct (IH σ1 self v Hm1) as (σ2 & Hrun & Hm2 & Hr2).
    exists σ2. split; [by rewrite (bind_eq _ _ _ _ _ Hset)|]. split.
    + by rewrite default_last_cons.
    + rewrite Hr2, Hr1, <- app_assoc. done.
Qed.

(** ** Which widget [build] returns *)

Lemma allocates_ret {A} (a : A) : allocates (mret a).
Proof. intros σ b σ' [_ ->]%ret_Ok. done. Qed.

Lemma allocates_bind {A B} (m : M A) (k : A → M B) :
  allocates m → (∀ a, allocates (k a)) → allocates (m ≫= k).
Proof.
  intros Hm Hk σ b σ2 (a & σ1 & H1 & H2)%bind_Ok.
  etrans; [by eapply Hm | by eapply Hk].
Qed.

Lemma allocates_ft_new c named kw : allocates (ft_new c named kw).
Proof. intros σ l σ' (_ & _ & ->)%ft_new_Ok. apply extends_push. Qed.

Lemma allocates_comprehension {A B} (f : A → M B) xs :
  (∀ x, allocates (f x)) → allocates (comprehension f xs).
Proof.
  intros Hf. induction xs as [|x xs IH]; simpl; [apply allocates_ret|].
  apply allocates_bind; [done|]. intros y.
  apply allocates_bind; [done|]. intros ys. apply allocates_ret.
Qed.

Lemma allocates_normalize_tab tab : allocates (normalize_tab tab).
Proof.
  destruct tab; simpl; try apply allocates_ret.
  apply allocates_bind; [apply allocates_ft_new|]. intros. apply allocates_ret.
Qed.

Ltac solve_allocates :=
  repeat first
    [ apply allocates_ret
    | apply allocates_ft_new
    | apply allocates_normalize_tab
    | apply allocates_bind; [|intros]
    | apply allocates_comprehension; intros ].

Lemma fresh_last c named kw :
  returns_fresh (w ← ft_new c named kw; mret (VRef w)).
Proof.
  intros σ v σ' (w & σ1 & (_ & -> & ->)%ft_new_Ok & [<- <-]%ret_Ok)%bind_Ok.
  eexists. split; [done|]. rewrite push_length. lia.
Qed.

Lemma fresh_bind {A} (pre : M A) (k : A → M pyval) :
  allocates pre → (∀ x, returns_fresh (k x)) → returns_fresh (pre ≫= k).
Proof.
  intros Hpre Hk σ v σ2 (x & σ1 & H1 & H2)%bind_Ok.
  destruct (Hk x _ _ _ H2) as (w & -> & Hw).
  exists w. split; [done|].
  pose proof (extends_length _ _ (Hpre _ _ _ H1)). lia.
Qed.

Ltac solve_fresh :=
  repeat first
    [ apply fresh_last
    | apply fresh_bind; [unfold ft_Text_of; solve_allocates | intros] ].

Lemma Div_build_fresh kwargs controls : returns_fresh (Div_build kwargs controls).
Proof. unfold Div_build. solve_fresh. Qed.

Lemma UnorderedList_build_fresh kwargs items :
  returns_fresh (UnorderedList_build kwargs items).
Proof. unfold UnorderedList_build. solve_fresh. Qed.

Lemma OrderedList_build_fresh kwargs items :
  returns_fresh (OrderedList_build kwargs items).
Proof.
  unfold OrderedList_build. apply fresh_bind; [|intros; apply fresh_last].
  apply allocates_comprehension. intros [i item]. unfold ft_Text_of. solve_allocates.
Qed.

Lemma Table_build_fresh kwargs headers rows :
  returns_fresh (Table_build kwargs headers rows).
Proof. unfold Table_build. solve_fresh. Qed.

Lemma Form_build_fresh kwargs controls on_submit :
  returns_fresh (Form_build kwargs controls on_submit).
Proof. unfold Form_build. solve_fresh. Qed.

(** [build] of an adapter that keeps its widget returns that widget and
    leaves the store as it is. *)
Lemma build_wrapped self kwargs c w σ :
  heap σ !! self = Some (FlexComponent kwargs c) → wrapped_widget c = Some w →
  build self σ = Ok (VRef w) σ.
Proof.
  intros Hself Hw. rewrite (build_eq _ _ _ _ Hself).
  destruct c; simpl in *; by simplify_eq.
Qed.

Lemma build_n_wrapped self kwargs c w σ n :
  heap σ !! self = Some (FlexComponent kwargs c) → wrapped_widget c = Some w →
  build_n n self σ = Ok (replicate n (VRef w)) σ.
Proof.
  intros Hself Hw. induction n as [|n IH]; simpl; [done|].
  rewrite (bind_eq _ _ _ _ _ (build_wrapped _ _ _ _ _ Hself Hw)).
  by rewrite (bind_eq _ _ _ _ _ IH).
Qed.

(** [build] of an adapter that keeps no widget returns a widget created by
    this very call. *)
Lemma build_creates self kwargs c σ v σ' :
  heap σ !! self = Some (FlexComponent kwargs c) → wrapped_widget c = None →
  build self σ = Ok v σ' →
  ∃ w, v = VRef w ∧ length (heap σ) ≤ w < length (heap σ').
Proof.
  intros Hself Hw. rewrite (build_eq _ _ _ _ Hself).
  destruct c; simpl in Hw; try done.
  - apply Div_build_fresh.
  - apply UnorderedList_build_fresh.
  - apply OrderedList_build_fresh.
  - apply Table_build_fresh.
  - apply Form_build_fresh.
Qed.

(** A constructor of the wrapping shape, run after a prefix that only
    allocates. *)
Lemma wrap_identity σ σb c named kw (mk : loc → component) self σ1 :
  extends σ σb →
  (w ← ft_new c named kw; new_component kw (mk w)) σb = Ok self σ1 →
  (∀ w, wrapped_widget (mk w) = Some w) →
  ∃ w, length (heap σ) ≤ w < length (heap σ1) ∧ w ≠ self ∧
    ∀ σ2, heap σ2 !! self = heap σ1 !! self →
      ∀ n, build_n n self σ2 = Ok (replicate n (VRef w)) σ2.
Proof.
  intros Hext (_ & -> & ->)%wrap_Ok Hmk. exists (length (heap σb)).
  apply extends_length in Hext. rewrite !push_length.
  split; [lia|]. split; [lia|].
  intros σ2 Hself n. rewrite lookup_push_2 in Hself.
  by eapply build_n_wrapped.
Qed.

Lemma new_component_Ok kw c σ self σ1 :
  new_component kw c σ = Ok self σ1 →
  self = length (heap σ) ∧ heap σ1 = heap σ ++ [FlexComponent kw c].
Proof. unfold new_component, alloc. by intros [= <- <-]. Qed.

(** [build] returns when the configuration bag repeats none of the keywords
    that [build] writes out. *)
Lemma build_returns self kwargs c σ :
  heap σ !! self = Some (FlexComponent kwargs c) →
  Forall (λ k, kwargs !! k = None) (build_keywords c) →
  ∃ v σ', build self σ = Ok v σ'.
Proof.
  intros Hself Hkw. rewrite (build_eq _ _ _ _ Hself).
  destruct c; simpl in *; try by eauto.
  - (* Div *) apply Forall_cons in Hkw as [Hc _].
    rewrite (Div_build_eq _ _ _ Hc). eauto.
  - (* UnorderedList *) apply Forall_cons in Hkw as [Hc _].
    destruct (UnorderedList_build_returns kwargs items σ Hc) as (v & σ' & ? & _).
    eauto.
  - (* OrderedList *) apply Forall_cons in Hkw as [Hc _].
    destruct (OrderedList_build_returns kwargs items σ Hc) as (v & σ' & ? & _).
    eauto.
  - (* Table *) apply Forall_cons in Hkw as [Hc [Hr _]%Forall_cons].
    destruct (Table_build_returns kwargs headers rows σ Hc Hr) as (v & σ' & ? & _).
    eauto.
  - (* Form *) apply Forall_cons in Hkw as [Hc _].
    rewrite (Form_build_eq _ _ _ _ Hc). eauto.
Qed.

Lemma lazy_identity kw c σ self σ1 :
  new_component kw c σ = Ok self σ1 → wrapped_widget c = None →
  ∃ kwargs comp, heap σ1 = heap σ ++ [FlexComponent kwargs comp] ∧
    ∀ σ2, heap σ2 !! self = heap σ1 !! self →
      (Forall (λ k, kwargs !! k = None) (build_keywords comp) →
       ∃ v σ3, build self σ2 = Ok v σ3) ∧
      (∀ v σ3, build self σ2 = Ok v σ3 →
       ∃ w, v = VRef w ∧ length (heap σ2) ≤ w < length (heap σ3)).
Proof.
  intros [-> Hheap]%new_component_Ok Hw. exists kw, c. split; [done|].
  intros σ2 Hself. rewrite Hheap in Hself.
  rewrite lookup_app_r, Nat.sub_diag in Hself by done. simpl in Hself.
  split.
  - by apply build_returns.
  - intros v σ3. by eapply build_creates.
Qed.

(** C8, in the form that the code satisfies.  The constructors of Div,
    UnorderedList, OrderedList,
    Table and Form add the adapter to the store and no widget; in any later
    store that still has the adapter, [build] returns when the configuration
    bag repeats none of the keywords that [build] writes out, and a [build]
    that returns, returns a widget created by that very call.  Every other
    constructor creates the widget its adapter wraps, and [build], called
    any number of times in any later store that still has the adapter,
    returns that widget every time and changes nothing. *)
Theorem build_widget_identity (c : ctor) (σ : store) (self : loc) (σ1 : store) :
  construct c σ = Ok self σ1 →
  if creates_in_build c
  then ∃ kwargs comp, heap σ1 = heap σ ++ [FlexComponent kwargs comp] ∧
       ∀ σ2, heap σ2 !! self = heap σ1 !! self →
         (Forall (λ k, kwargs !! k = None) (build_keywords comp) →
          ∃ v σ3, build self σ2 = Ok v σ3) ∧
         (∀ v σ3, build self σ2 = Ok v σ3 →
          ∃ w, v = VRef w ∧ length (heap σ2) ≤ w < length (heap σ3))
  else ∃ w, length (heap σ) ≤ w < length (heap σ1) ∧ w ≠ self ∧
       ∀ σ2, heap σ2 !! self = heap σ1 !! self →
         ∀ n, build_n n self σ2 = Ok (replicate n (VRef w)) σ2.
Proof.
  destruct c; simpl; intros Hrun;
    try (eapply wrap_identity; [reflexivity | exact Hrun | done]);
    try (by apply (lazy_identity _ _ _ _ _ Hrun)).
  - (* Button *) unfold new_Button in Hrun.
    apply bind_Ok in Hrun as (style & σa & Hstyle & Hrun).
    eapply wrap_identity; [|exact Hrun|done].
    revert Hstyle. generalize σ style σa.
    change (allocates (if truthy color
      then s ← ft_new ft_ButtonStyle [("color", VDict {["" := color]})] ∅;
           mret (VRef s)
      else mret VNone)).
    destruct (truthy color); solve_allocates.
  - (* RadioGroup *) unfold new_RadioGroup in Hrun.
    apply bind_Ok in Hrun as (radios & σa & Hradios & Hrun).
    apply bind_Ok in Hrun as (column & σb & Hcolumn & Hrun).
    eapply wrap_identity; [|exact Hrun|done].
    etrans; [|by eapply allocates_ft_new].
    revert Hradios. apply allocates_comprehension. intros. solve_allocates.
  - (* Dropdown *) unfold new_Dropdown in Hrun.
    apply bind_Ok in Hrun as (opts & σa & Hopts & Hrun).
    eapply wrap_identity; [|exact Hrun|done].
    revert Hopts. apply allocates_comprehension. intros. solve_allocates.
  - (* Tabs *) unfold new_Tabs in Hrun.
    apply bind_Ok in Hrun as (ts & σa & Hts & Hrun).
    eapply wrap_identity; [|exact Hrun|done].
    revert Hts. apply allocates_comprehension. intros. solve_allocates.
  - (* Alert *) unfold new_Alert in Hrun.
    apply bind_Ok in Hrun as (content & σa & Hcontent & Hrun).
    eapply wrap_identity; [|exact Hrun|done].
    by eapply allocates_ft_new.
Qed.

Lemma build_widget_identity_witness :
  ∃ w,
    length (heap empty_store) ≤ w
      < length (heap (Store [Widget ft_Text {["value" := VStr "hi"]};
                             FlexComponent ∅ (Text 0)] [])) ∧
    w ≠ 1 ∧
    ∀ σ2,
      heap σ2 !! 1
        = heap (Store [Widget ft_Text {["value" := VStr "hi"]};
                       FlexComponent ∅ (Text 0)] []) !! 1 →
      ∀ n, build_n n 1 σ2 = Ok (replicate n (VRef w)) σ2.
Proof.
  apply (build_widget_identity (CallText (VStr "hi") ∅) empty_store 1);
    reflexivity.
Defined.

(** A Div with no children, constructed in the empty store and built twice:
    the first call returns the container at location 2, the second the
    container at location 4. *)
Lemma Div_build_twice :
  construct (CallDiv [] ∅) empty_store
    = Ok 0 (Store [FlexComponent ∅ (Div [])] []) ∧
  build_n 2 0 (Store [FlexComponent ∅ (Div [])] [])
    = Ok [VRef 2; VRef 4]
        (Store [FlexComponent ∅ (Div []);
                Widget ft_Column {["controls" := VList []]};
                Widget ft_Container {["content" := VRef 1]};
                Widget ft_Column {["controls" := VList []]};
                Widget ft_Container {["content" := VRef 3]}] []).
Proof. split; reflexivity. Qed.

(** C8, as stated, fails for Div: the two calls of [build] above return two
    different containers. *)
Lemma Div_build_twice_differs : ¬ builds_one_widget (CallDiv [] ∅).
Proof.
  intros H. destruct Div_build_twice as [Hnew Hrun].
  destruct (H _ _ _ Hnew) as [w Hw].
  specialize (Hw 2 _ _ Hrun). simpl in Hw. by simplify_eq.
Qed.

(** * Further properties of the constructors and of [build] *)

(** ** When a constructor raises *)

Lemma no_collision_repeats named kw :
  no_collision named kw = negb (repeats kw named.*1).
Proof.
  unfold no_collision, repeats. induction named as [|[k v] named IH]; simpl; [done|].
  rewrite IH. by destruct (kw !! k).
Qed.

Lemma wrap_outcome c named kw (mk : loc → component) σ :
  (w ← ft_new c named kw; new_component kw (mk w)) σ =
  if repeats kw named.*1 then Raise TypeError
  else Ok (S (length (heap σ)))
         (push (FlexComponent kw (mk (length (heap σ))))
            (push (Widget c (bind_args named kw)) σ)).
Proof.
  pose proof (no_collision_repeats named kw) as Hn.
  destruct (repeats kw named.*1); simpl in Hn.
  - unfold mbind, M_bind. by rewrite ft_new_collision.
  - by apply wrap_eq.
Qed.

(** A comprehension returns when its body always does. *)
Lemma comprehension_total {A B} (f : A → M B) xs :
  (∀ x σ, ∃ y σ', f x σ = Ok y σ') →
  ∀ σ, ∃ ys σ', comprehension f xs σ = Ok ys σ'.
Proof.
  intros Hf. induction xs as [|x xs IH]; intros σ; simpl; [by eexists _, _|].
  destruct (Hf x σ) as (y & σ1 & Hy). destruct (IH σ1) as (ys & σ2 & Hys).
  exists (y :: ys), σ2.
  by rewrite (bind_eq _ _ _ _ _ Hy), (bind_eq _ _ _ _ _ Hys).
Qed.

Lemma new_empty_total c named (mk : loc → pyval) σ :
  ∃ y σ', (w ← ft_new c named ∅; mret (mk w)) σ = Ok y σ'.
Proof. eexists _, _. by call_empty. Qed.

Lemma normalize_tab_total tab σ : ∃ t σ', normalize_tab tab σ = Ok t σ'.
Proof.
  destruct tab; simpl; by eexists _, _.
Qed.

Ltac wrap_outcome_case :=
  rewrite wrap_outcome; unfold repeats; simpl;
  repeat (match goal with
          | |- context [@lookup string pyval _ _ ?k ?kw] => destruct (kw !! k)
          end; simpl);
  eauto.

(** With toolkit constructors that take every option, as [ft_new] does, a
    constructor raises [TypeError] when its configuration bag repeats one of
    the parameter names it writes out, and returns an adapter otherwise. *)
Lemma construct_outcome (c : ctor) (σ : store) :
  if repeats (ctor_kwargs c) (ctor_keywords c)
  then construct c σ = Raise TypeError
  else ∃ self σ1, construct c σ = Ok self σ1.
Proof.
  destruct c; simpl ctor_kwargs; simpl ctor_keywords; simpl construct;
    try (by unfold repeats; simpl; eauto).
  - unfold new_Text. wrap_outcome_case.
  - unfold new_Button. destruct (truthy color).
    + erewrite bind_eq by (call_empty; reflexivity). wrap_outcome_case.
    + erewrite bind_eq by reflexivity. wrap_outcome_case.
  - unfold new_Input. wrap_outcome_case.
  - unfold new_Image. wrap_outcome_case.
  - unfold new_Heading. wrap_outcome_case.
  - unfold new_Paragraph. wrap_outcome_case.
  - unfold new_Link. wrap_outcome_case.
  - unfold new_Checkbox. wrap_outcome_case.
  - unfold new_RadioGroup.
    destruct (comprehension_total
                (λ option, r ← ft_new ft_Radio
                                 [("value", option); ("label", option)] ∅;
                           mret (VRef r)) options
                (λ option σ', new_empty_total _ _ VRef σ') σ)
      as (radios & σa & Hr).
    rewrite (bind_eq _ _ _ _ _ Hr). call_empty. wrap_outcome_case.
  - unfold new_Dropdown.
    destruct (comprehension_total
                (λ option, o ← ft_new ft_dropdown_Option [("key", option)] ∅;
                           mret (VRef o)) options
                (λ option σ', new_empty_total _ _ VRef σ') σ)
      as (opts & σa & Ho).
    rewrite (bind_eq _ _ _ _ _ Ho). wrap_outcome_case.
  - unfold new_Slider. wrap_outcome_case.
  - unfold new_ProgressBar. wrap_outcome_case.
  - unfold new_Tabs.
    destruct (comprehension_total normalize_tab tabs normalize_tab_total σ)
      as (ts & σa & Hts).
    rewrite (bind_eq _ _ _ _ _ Hts). wrap_outcome_case.
  - unfold new_Alert. call_empty. wrap_outcome_case.
Qed.

(** ** When [build] raises *)

Lemma last_outcome c named kw σ :
  (w ← ft_new c named kw; mret (VRef w)) σ =
  if repeats kw named.*1 then Raise TypeError
  else Ok (VRef (length (heap σ))) (push (Widget c (bind_args named kw)) σ).
Proof.
  pose proof (no_collision_repeats named kw) as Hn.
  destruct (repeats kw named.*1); simpl in Hn.
  - unfold mbind, M_bind. by rewrite ft_new_collision.
  - by call_with ltac:(done).
Qed.

Lemma ft_Text_of_total s σ : ∃ v σ', ft_Text_of s σ = Ok v σ'.
Proof. apply (new_empty_total _ _ VRef). Qed.

Lemma text_then_total c k s σ :
  ∃ v σ', (x ← ft_Text_of s; w ← ft_new c [(k, x)] ∅; mret (VRef w)) σ = Ok v σ'.
Proof.
  destruct (ft_Text_of_total s σ) as (x & σ1 & Hx).
  rewrite (bind_eq _ _ _ _ _ Hx). apply (new_empty_total _ _ VRef).
Qed.

Lemma DataRow_total (row : list string) σ :
  ∃ v σ',
    (cells ← comprehension
               (λ cell, content ← ft_Text_of cell;
                        c ← ft_new ft_DataCell [("content", content)] ∅;
                        mret (VRef c)) row;
     r ← ft_new ft_DataRow [("cells", VList cells)] ∅;
     mret (VRef r)) σ = Ok v σ'.
Proof.
  destruct (comprehension_total
              (λ cell, content ← ft_Text_of cell;
                       c ← ft_new ft_DataCell [("content", content)] ∅;
                       mret (VRef c)) row
              (λ cell σ', text_then_total _ _ cell σ') σ) as (cells & σ1 & Hc).
  rewrite (bind_eq _ _ _ _ _ Hc). apply (new_empty_total _ _ VRef).
Qed.

Ltac last_outcome_case :=
  rewrite last_outcome; unfold repeats; simpl;
  repeat (match goal with
          | |- context [@lookup string pyval _ _ ?k ?kw] => destruct (kw !! k)
          end; simpl);
  eauto.

(** With toolkit constructors that take every option, as [ft_new] does,
    [build] raises [TypeError] when the configuration bag of the adapter
    repeats one of the parameter names that [build] writes out, and returns
    otherwise. *)
Lemma build_outcome (self : loc) (kwargs : gmap string pyval)
    (c : component) (σ : store) :
  heap σ !! self = Some (FlexComponent kwargs c) →
  if repeats kwargs (build_keywords c)
  then build self σ = Raise TypeError
  else ∃ v σ', build self σ = Ok v σ'.
Proof.
  intros Hself. rewrite (build_eq _ _ _ _ Hself).
  destruct c; simpl build_keywords; cbv beta iota;
    try (by unfold repeats; simpl; eauto).
  - unfold Div_build. call_empty. last_outcome_case.
  - unfold UnorderedList_build.
    destruct (comprehension_total
                (λ item, ft_Text_of (UnorderedList_prefix +:+ item)) items
                (λ item σ', ft_Text_of_total _ σ') σ) as (cs & σ1 & Hcs).
    rewrite (bind_eq _ _ _ _ _ Hcs). last_outcome_case.
  - unfold OrderedList_build.
    destruct (comprehension_total
                (λ '(i, item), ft_Text_of (pretty (i + 1) +:+ ". " +:+ item))
                (enumerate items)
                (λ x σ', let '(i, item) := x in ft_Text_of_total _ σ') σ)
      as (cs & σ1 & Hcs).
    rewrite (bind_eq _ _ _ _ _ Hcs). last_outcome_case.
  - unfold Table_build.
    destruct (comprehension_total
                (λ header, label ← ft_Text_of header;
                           c ← ft_new ft_DataColumn [("label", label)] ∅;
                           mret (VRef c)) headers
                (λ header σ', text_then_total _ _ header σ') σ)
      as (columns & σ1 & Hcolumns).
    rewrite (bind_eq _ _ _ _ _ Hcolumns).
    destruct (comprehension_total _ rows (λ row σ', DataRow_total row σ') σ1)
      as (rs & σ2 & Hrs).
    rewrite (bind_eq _ _ _ _ _ Hrs). last_outcome_case.
  - unfold Form_build. call_empty. call_empty. last_outcome_case.
Qed.

(** ** Constructors and [build] only allocate *)

Lemma allocates_self_of self : allocates (self_of self).
Proof.
  intros σ a σ'. unfold self_of.
  destruct (heap σ !! self) as [[]|]; try done. by intros [= _ <-].
Qed.

Lemma allocates_ft_Text_of s : allocates (ft_Text_of s).
Proof. unfold ft_Text_of. solve_allocates. Qed.

Lemma allocates_build self : allocates (build self).
Proof.
  unfold build. apply allocates_bind; [apply allocates_self_of|].
  intros [kwargs c]. destruct c; try apply allocates_ret.
  - unfold Div_build. solve_allocates.
  - unfold UnorderedList_build.
    apply allocates_bind; [|intros; solve_allocates].
    apply allocates_comprehension. intros. apply allocates_ft_Text_of.
  - unfold OrderedList_build.
    apply allocates_bind; [|intros; solve_allocates].
    apply allocates_comprehension. intros [i item]. apply allocates_ft_Text_of.
  - unfold Table_build, ft_Text_of. solve_allocates.
  - unfold Form_build. solve_allocates.
Qed.

Lemma bind_Ok_extends {A B} (m : M A) (k : A → M B) σ b σ2 :
  allocates m → (m ≫= k) σ = Ok b σ2 →
  ∃ a σ1, extends σ σ1 ∧ k a σ1 = Ok b σ2.
Proof. intros Hm (a & σ1 & H1 & H2)%bind_Ok. exists a, σ1. eauto. Qed.

Lemma allocates_Button_style (color : pyval) :
  allocates (if truthy color
             then s ← ft_new ft_ButtonStyle [("color", VDict {["" := color]})] ∅;
                  mret (VRef s)
             else mret VNone).
Proof. destruct (truthy color); solve_allocates. Qed.

(** How every constructor ends: in a store that has the earlier objects
    unchanged, the adapter is added last, with the configuration bag of the
    call. *)
Lemma construct_shape c σ self σ1 :
  construct c σ = Ok self σ1 →
  ∃ σb comp, extends σ σb ∧ self = length (heap σb) ∧
    σ1 = push (FlexComponent (ctor_kwargs c) comp) σb.
Proof.
  assert (∀ σ σb kw comp self σ1,
            extends σ σb → new_component kw comp σb = Ok self σ1 →
            ∃ σb comp, extends σ σb ∧ self = length (heap σb) ∧
              σ1 = push (FlexComponent kw comp) σb) as Hend.
  { intros σ0 σb kw comp self0 σ2 Hext Hnew. exists σb, comp.
    unfold new_component, alloc in Hnew. by simplify_eq. }
  destruct c; simpl; intros Hrun.
  - unfold new_Text in Hrun.
    apply bind_Ok_extends in Hrun as (? & ? & ? & Hrun); [|solve_allocates]. eauto.
  - unfold new_Button in Hrun.
    apply bind_Ok_extends in Hrun as (? & ? & ? & Hrun);
      [|apply allocates_Button_style].
    apply bind_Ok_extends in Hrun as (? & ? & ? & Hrun); [|solve_allocates].
    eapply Hend; [|exact Hrun]. by etrans.
  - unfold new_Input in Hrun.
    apply bind_Ok_extends in Hrun as (? & ? & ? & Hrun); [|solve_allocates]. eauto.
  - eapply Hend; [reflexivity | exact Hrun].
  - unfold new_Image in Hrun.
    apply bind_Ok_extends in Hrun as (? & ? & ? & Hrun); [|solve_allocates]. eauto.
  - unfold new_Heading in Hrun.
    apply bind_Ok_extends in Hrun as (? & ? & ? & Hrun); [|solve_allocates]. eauto.
  - unfold new_Paragraph in Hrun.
    apply bind_Ok_extends in Hrun as (? & ? & ? & Hrun); [|solve_allocates]. eauto.
  - unfold new_Link in Hrun.
    apply bind_Ok_extends in Hrun as (? & ? & ? & Hrun); [|solve_allocates]. eauto.
  - eapply Hend; [reflexivity | exact Hrun].
  - eapply Hend; [reflexivity | exact Hrun].
  - eapply Hend; [reflexivity | exact Hrun].
  - eapply Hend; [reflexivity | exact Hrun].
  - unfold new_Checkbox in Hrun.
    apply bind_Ok_extends in Hrun as (? & ? & ? & Hrun); [|solve_allocates]. eauto.
  - unfold new_RadioGroup in Hrun.
    apply bind_Ok_extends in Hrun as (? & ? & ? & Hrun); [|solve_allocates].
    apply bind_Ok_extends in Hrun as (? & ? & ? & Hrun); [|solve_allocates].
    apply bind_Ok_extends in Hrun as (? & ? & ? & Hrun); [|solve_allocates].
    eapply Hend; [|exact Hrun]. etrans; [|done]. by etrans.
  - unfold new_Dropdown in Hrun.
    apply bind_Ok_extends in Hrun as (? & ? & ? & Hrun); [|solve_allocates].
    apply bind_Ok_extends in Hrun as (? & ? & ? & Hrun); [|solve_allocates].
    eapply Hend; [|exact Hrun]. by etrans.
  - unfold new_Slider in Hrun.
    apply bind_Ok_extends in Hrun as (? & ? & ? & Hrun); [|solve_allocates]. eauto.
  - unfold new_ProgressBar in Hrun.
    apply bind_Ok_extends in Hrun as (? & ? & ? & Hrun); [|solve_allocates]. eauto.
  - unfold new_Tabs in Hrun.
    apply bind_Ok_extends in Hrun as (? & ? & ? & Hrun); [|solve_allocates].
    apply bind_Ok_extends in Hrun as (? & ? & ? & Hrun); [|solve_allocates].
    eapply Hend; [|exact Hrun]. by etrans.
  - unfold new_Alert in Hrun.
    apply bind_Ok_extends in Hrun as (? & ? & ? & Hrun); [|solve_allocates].
    apply bind_Ok_extends in Hrun as (? & ? & ? & Hrun); [|solve_allocates].
    eapply Hend; [|exact Hrun]. by etrans.
Qed.

(** X3.  A constructor that returns has changed no object that was in the store
    and has requested no redisplay; the adapter it returns is a new object,
    and it holds the configuration bag of the call. *)
Theorem construct_only_allocates (c : ctor) (σ : store) (self : loc) (σ1 : store) :
  construct c σ = Ok self σ1 →
  (∀ l o, heap σ !! l = Some o → heap σ1 !! l = Some o) ∧
  redisplays σ1 = redisplays σ ∧
  heap σ !! self = None ∧
  ∃ comp, heap σ1 !! self = Some (FlexComponent (ctor_kwargs c) comp).
Proof.
  intros (σb & comp & Hext & -> & ->)%construct_shape.
  assert (extends σ (push (FlexComponent (ctor_kwargs c) comp) σb)) as Hext1
    by (etrans; [done | apply extends_push]).
  split; [intros l o; by apply extends_lookup|].
  split; [apply Hext1|].
  split; [apply lookup_ge_None; by apply extends_length|].
  exists comp. apply push_lookup_new.
Qed.

Lemma construct_only_allocates_witness :
  (∀ l o, heap (Store [Widget ft_Text ∅] [0]) !! l = Some o →
          heap (Store [Widget ft_Text ∅;
                       Widget ft_Checkbox
                         (<["label" := VStr "ok"]> {["value" := VBool true]});
                       FlexComponent ∅ (Checkbox 1)] [0]) !! l = Some o) ∧
  redisplays (Store [Widget ft_Text ∅;
                     Widget ft_Checkbox
                       (<["label" := VStr "ok"]> {["value" := VBool true]});
                     FlexComponent ∅ (Checkbox 1)] [0])
    = redisplays (Store [Widget ft_Text ∅] [0]) ∧
  heap (Store [Widget ft_Text ∅] [0]) !! 2 = None ∧
  ∃ comp,
    heap (Store [Widget ft_Text ∅;
                 Widget ft_Checkbox
                   (<["label" := VStr "ok"]> {["value" := VBool true]});
                 FlexComponent ∅ (Checkbox 1)] [0]) !! 2
      = Some (FlexComponent (ctor_kwargs (CallCheckbox (VStr "ok") (VBool true) ∅))
                comp).
Proof.
  apply (construct_only_allocates (CallCheckbox (VStr "ok") (VBool true) ∅)
           (Store [Widget ft_Text ∅] [0]) 2); reflexivity.
Defined.

(** X4.  A [build] that returns has changed no object that was in the store and
    has requested no redisplay. *)
Theorem build_only_allocates (self : loc) (σ : store) (v : pyval) (σ' : store) :
  build self σ = Ok v σ' →
  (∀ l o, heap σ !! l = Some o → heap σ' !! l = Some o) ∧
  redisplays σ' = redisplays σ.
Proof.
  intros Hext%allocates_build.
  split; [intros l o; by apply extends_lookup | apply Hext].
Qed.

Lemma build_only_allocates_witness :
  (∀ l o,
     heap (Store [FlexComponent ∅ (Div [])] [0]) !! l = Some o →
     heap (Store [FlexComponent ∅ (Div []);
                  Widget ft_Column {["controls" := VList []]};
                  Widget ft_Container {["content" := VRef 1]}] [0]) !! l = Some o) ∧
  redisplays (Store [FlexComponent ∅ (Div []);
                     Widget ft_Column {["controls" := VList []]};
                     Widget ft_Container {["content" := VRef 1]}] [0])
    = redisplays (Store [FlexComponent ∅ (Div [])] [0]).
Proof.
  apply (build_only_allocates 0 (Store [FlexComponent ∅ (Div [])] [0]) (VRef 2));
    reflexivity.
Defined.

(** ** The configuration bag reaches the widget unchanged *)

Lemma bind_args_kw named kw k v :
  no_collision named kw = true → kw !! k = Some v →
  bind_args named kw !! k = Some v.
Proof.
  intros Hn Hk. induction named as [|[k0 v0] named IH]; simpl in *; [done|].
  apply andb_true_iff in Hn as [Hk0 Hn].
  rewrite lookup_insert_ne; [by apply IH|].
  intros ->. by rewrite Hk in Hk0.
Qed.

Lemma wrap_forwards c named kw (mk : loc → component) σb self σ1 k v :
  (w ← ft_new c named kw; new_component kw (mk w)) σb = Ok self σ1 →
  (∀ w, wrapped_widget (mk w) = Some w) → kw !! k = Some v →
  wrapped_attr σ1 self k = Some v.
Proof.
  intros (Hn & -> & ->)%wrap_Ok Hmk Hk.
  rewrite (wrapped_attr_wrap _ _ _ mk _ _ _ (Hmk _) eq_refl).
  by apply bind_args_kw.
Qed.

(** X5.  Every option of the configuration bag is an option of the widget that
    the constructor creates, under the same name and with the same value,
    for the fourteen classes whose constructor creates the widget. *)
Theorem kwargs_forwarded (c : ctor) (σ : store) (self : loc) (σ1 : store)
    (k : string) (v : pyval) :
  construct c σ = Ok self σ1 → creates_in_build c = false →
  ctor_kwargs c !! k = Some v →
  wrapped_attr σ1 self k = Some v.
Proof.
  destruct c; simpl; intros Hrun Hc Hk; try done;
    try (by eapply wrap_forwards; [exact Hrun | done | done]).
  - unfold new_Button in Hrun. apply bind_Ok in Hrun as (? & ? & _ & Hrun).
    by eapply wrap_forwards; [exact Hrun | done | done].
  - unfold new_RadioGroup in Hrun. apply bind_Ok in Hrun as (? & ? & _ & Hrun).
    apply bind_Ok in Hrun as (? & ? & _ & Hrun).
    by eapply wrap_forwards; [exact Hrun | done | done].
  - unfold new_Dropdown in Hrun. apply bind_Ok in Hrun as (? & ? & _ & Hrun).
    by eapply wrap_forwards; [exact Hrun | done | done].
  - unfold new_Tabs in Hrun. apply bind_Ok in Hrun as (? & ? & _ & Hrun).
    by eapply wrap_forwards; [exact Hrun | done | done].
Qed.

Lemma kwargs_forwarded_witness :
  wrapped_attr
    (Store [Widget ft_Image (<["src" := VStr "a.png"]> {["width" := VInt 40]});
            FlexComponent {["width" := VInt 40]} (Image 0)] [])
    1 "width" = Some (VInt 40).
Proof.
  apply (kwargs_forwarded (CallImage (VStr "a.png") {["width" := VInt 40]})
           empty_store 1); reflexivity.
Defined.

Lemma last_Ok c named kw σ v σ' :
  (w ← ft_new c named kw; mret (VRef w)) σ = Ok v σ' →
  no_collision named kw = true ∧ v = VRef (length (heap σ)) ∧
  σ' = push (Widget c (bind_args named kw)) σ.
Proof.
  intros (w & σ1 & (Hn & -> & ->)%ft_new_Ok & [<- <-]%ret_Ok)%bind_Ok. done.
Qed.

Lemma last_forwards c named kw σ v σ' :
  (w ← ft_new c named kw; mret (VRef w)) σ = Ok v σ' →
  ∃ w attrs, v = VRef w ∧ heap σ' !! w = Some (Widget c attrs) ∧
    ∀ k x, kw !! k = Some x → attrs !! k = Some x.
Proof.
  intros (Hn & -> & ->)%last_Ok. eexists _, _. split; [done|].
  split; [apply push_lookup_new|]. intros k x. by apply bind_args_kw.
Qed.

(** X6.  For the five classes that create their widgets in [build], every option
    of the configuration bag is an option of the widget that [build] returns:
    the container of a Div or a Form, the column of a list, the data table
    of a Table. *)
Theorem build_kwargs_on_result (self : loc) (kwargs : gmap string pyval)
    (c : component) (σ : store) (v : pyval) (σ' : store) :
  heap σ !! self = Some (FlexComponent kwargs c) → wrapped_widget c = None →
  build self σ = Ok v σ' →
  ∃ w attrs, v = VRef w ∧
    heap σ' !! w
      = Some (Widget match c with
                     | Table _ _ => ft_DataTable
                     | UnorderedList _ | OrderedList _ => ft_Column
                     | _ => ft_Container
                     end attrs) ∧
    ∀ k x, kwargs !! k = Some x → attrs !! k = Some x.
Proof.
  intros Hself Hw. rewrite (build_eq _ _ _ _ Hself).
  destruct c; simpl in Hw; try done; intros Hrun.
  - unfold Div_build in Hrun. apply bind_Ok in Hrun as (? & ? & _ & Hrun).
    by apply last_forwards in Hrun.
  - unfold UnorderedList_build in Hrun.
    apply bind_Ok in Hrun as (? & ? & _ & Hrun). by apply last_forwards in Hrun.
  - unfold OrderedList_build in Hrun.
    apply bind_Ok in Hrun as (? & ? & _ & Hrun). by apply last_forwards in Hrun.
  - unfold Table_build in Hrun. apply bind_Ok in Hrun as (? & ? & _ & Hrun).
    apply bind_Ok in Hrun as (? & ? & _ & Hrun). by apply last_forwards in Hrun.
  - unfold Form_build in Hrun. apply bind_Ok in Hrun as (? & ? & _ & Hrun).
    apply bind_Ok in Hrun as (? & ? & _ & Hrun). by apply last_forwards in Hrun.
Qed.

Lemma build_kwargs_on_result_witness :
  ∃ w attrs, VRef 2 = VRef w ∧
    heap (Store [FlexComponent {["spacing" := VInt 4]} (OrderedList ["x"]);
                 Widget ft_Text {["value" := VStr "1. x"]};
                 Widget ft_Column
                   (<["controls" := VList [VRef 1]]> {["spacing" := VInt 4]})] [])
      !! w = Some (Widget ft_Column attrs) ∧
    ∀ k x, ({["spacing" := VInt 4]} : gmap string pyval) !! k = Some x →
           attrs !! k = Some x.
Proof.
  apply (build_kwargs_on_result 0 {["spacing" := VInt 4]} (OrderedList ["x"])
           (Store [FlexComponent {["spacing" := VInt 4]} (OrderedList ["x"])] []));
    reflexivity.
Defined.

(** ** Button and Alert *)

(** X7.  A Button whose configuration bag repeats none of [text], [style] and
    [on_click] is constructed; the button it wraps has the text and the click
    handler of the call, and its style is [None] when the colour is [None],
    the empty string or otherwise false, and else a new button style whose
    colour is the dictionary that maps the empty string to the colour. *)
Theorem Button_style (text color on_click : pyval)
    (kwargs : gmap string pyval) (σ : store) :
  kwargs !! "text" = None → kwargs !! "style" = None →
  kwargs !! "on_click" = None →
  ∃ self σ', new_Button text color on_click kwargs σ = Ok self σ' ∧
    wrapped_attr σ' self "text" = Some text ∧
    wrapped_attr σ' self "on_click" = Some on_click ∧
    if truthy color
    then ∃ s, wrapped_attr σ' self "style" = Some (VRef s) ∧
           length (heap σ) ≤ s ∧
           heap σ' !! s
             = Some (Widget ft_ButtonStyle {["color" := VDict {["" := color]}]})
    else wrapped_attr σ' self "style" = Some VNone.
Proof.
  intros Ht Hs Ho. unfold new_Button. destruct (truthy color).
  - eexists _, _. split.
    { erewrite bind_eq by (call_empty; reflexivity).
      apply wrap_eq. simpl. by rewrite Ht, Hs, Ho. }
    rewrite !(wrapped_attr_wrap _ _ _ Button _ _ _ eq_refl eq_refl). simpl.
    split; [by simplify_map_eq|]. split; [by simplify_map_eq|].
    eexists. split; [by simplify_map_eq|]. split; [done|].
    rewrite <- !app_assoc. by rewrite lookup_app_r, Nat.sub_diag.
  - eexists _, _. split.
    { erewrite bind_eq by reflexivity.
      apply wrap_eq. simpl. by rewrite Ht, Hs, Ho. }
    rewrite !(wrapped_attr_wrap _ _ _ Button _ _ _ eq_refl eq_refl). simpl.
    split; [by simplify_map_eq|]. split; by simplify_map_eq.
Qed.

Lemma Button_style_witness :
  ∃ self σ', new_Button (VStr "Go") (VStr "") (VFun "go") ∅ empty_store
             = Ok self σ' ∧
    wrapped_attr σ' self "text" = Some (VStr "Go") ∧
    wrapped_attr σ' self "on_click" = Some (VFun "go") ∧
    wrapped_attr σ' self "style" = Some VNone.
Proof.
  apply (Button_style (VStr "Go") (VStr "") (VFun "go") ∅ empty_store);
    reflexivity.
Defined.

(** X8.  An Alert that is constructed shows its text in a text widget of its own,
    created by the constructor with the text as its only option: the
    configuration bag goes to the container and not to the text. *)
Theorem Alert_text_widget (text : pyval) (severity : string)
    (kwargs : gmap string pyval) (σ : store) (self : loc) (σ' : store) :
  new_Alert text severity kwargs σ = Ok self σ' →
  ∃ content, wrapped_attr σ' self "content" = Some (VRef content) ∧
    heap σ !! content = None ∧
    heap σ' !! content = Some (Widget ft_Text {["value" := text]}).
Proof.
  unfold new_Alert. intros Hrun.
  apply bind_Ok in Hrun as (content & σa & (_ & -> & ->)%ft_new_Ok & Hrun).
  apply wrap_Ok in Hrun as (_ & -> & ->).
  exists (length (heap σ)).
  rewrite (wrapped_attr_wrap _ _ _ Alert _ _ _ eq_refl eq_refl). simpl.
  split; [by simplify_map_eq|].
  split; [by apply lookup_ge_None|].
  rewrite <- !app_assoc. by rewrite lookup_app_r, Nat.sub_diag.
Qed.

Lemma Alert_text_widget_witness :
  ∃ content,
    wrapped_attr
      (Store [Widget ft_Text {["value" := VStr "Saved"]};
              Widget ft_Container
                (<["content" := VRef 0]> (<["bgcolor" := VColor GREEN]>
                 (<["padding" := VInt 10]> (<["border_radius" := VInt 5]>
                  {["width" := VInt 200]}))));
              FlexComponent {["width" := VInt 200]} (Alert 1)] [])
      2 "content" = Some (VRef content) ∧
    heap empty_store !! content = None ∧
    heap (Store [Widget ft_Text {["value" := VStr "Saved"]};
                 Widget ft_Container
                   (<["content" := VRef 0]> (<["bgcolor" := VColor GREEN]>
                    (<["padding" := VInt 10]> (<["border_radius" := VInt 5]>
                     {["width" := VInt 200]}))));
                 FlexComponent {["width" := VInt 200]} (Alert 1)] [])
      !! content = Some (Widget ft_Text {["value" := VStr "Saved"]}).
Proof.
  apply (Alert_text_widget (VStr "Saved") "success" {["width" := VInt 200]}
           empty_store 2); reflexivity.
Defined.

(** ** RadioGroup and Dropdown *)

Lemma radio_of_extends σ σ' v r :
  extends σ σ' → radio_of σ v = Some r → radio_of σ' v = Some r.
Proof.
  intros Hext. unfold radio_of.
  destruct (widget_at σ ft_Radio v) as [attrs|] eqn:Hw; [|done].
  by rewrite (widget_at_extends _ _ _ _ _ Hext Hw).
Qed.

Lemma Radio_returns (option : pyval) σ :
  returns (r ← ft_new ft_Radio [("value", option); ("label", option)] ∅;
           mret (VRef r)) σ
    (λ v σ', radio_of σ' v = Some (option, option)).
Proof.
  apply returns_bind. apply returns_ft_new; [apply no_collision_empty|].
  apply returns_ret. unfold radio_of. rewrite widget_at_new. simpl.
  by simplify_map_eq.
Qed.

(** X9.  A RadioGroup whose configuration bag does not name [content] again is
    constructed; it keeps the options, and the radio group it wraps has as
    its content a column of one radio button per option, in order, each with
    the option both as its value and as its label. *)
Theorem RadioGroup_radios (options : list pyval)
    (kwargs : gmap string pyval) (σ : store) :
  kwargs !! "content" = None →
  ∃ self w σ', new_RadioGroup options kwargs σ = Ok self σ' ∧
    heap σ' !! self = Some (FlexComponent kwargs (RadioGroup options w)) ∧
    radio_group_radios σ' self = Some ((λ option, (option, option)) <$> options).
Proof.
  intros Hc.
  destruct (returns_comprehension
              (λ option, r ← ft_new ft_Radio
                               [("value", option); ("label", option)] ∅;
                         mret (VRef r))
              (λ option v σ', radio_of σ' v = Some (option, option)) options σ)
    as (radios & σa & Hrun & _ & Hradios).
  { intros option v σ1 σ2 H ?. by eapply radio_of_extends. }
  { intros option σ1 _ _. apply Radio_returns. }
  set (column := Widget ft_Column (bind_args [("controls", VList radios)] ∅)).
  set (group := Widget ft_RadioGroup
                  (bind_args [("content", VRef (length (heap σa)))] kwargs)).
  set (adapter := FlexComponent kwargs
                    (RadioGroup options (length (heap (push column σa))))).
  assert (new_RadioGroup options kwargs σ
          = Ok (S (length (heap (push column σa))))
               (push adapter (push group (push column σa)))) as Hnew.
  { unfold new_RadioGroup. rewrite (bind_eq _ _ _ _ _ Hrun).
    erewrite bind_eq by (apply ft_new_Ok; split; [apply no_collision_empty | done]).
    apply (wrap_eq _ _ _ (RadioGroup options)). simpl. by rewrite Hc. }
  assert (wrapped_attr (push adapter (push group (push column σa)))
            (S (length (heap (push column σa)))) "content"
          = Some (VRef (length (heap σa)))) as Hcontent.
  { unfold adapter, group.
    rewrite (wrapped_attr_wrap _ _ _ (RadioGroup options) _ _ _ eq_refl eq_refl).
    apply lookup_insert_eq. }
  assert (extends (push column σa) (push adapter (push group (push column σa))))
    as Hext by (etrans; apply extends_push).
  pose proof (widget_at_extends _ _ _ _ _ Hext (widget_at_new _ _ _)) as Hcolumn.
  assert (mapM (radio_of (push adapter (push group (push column σa)))) radios
          = Some ((λ option, (option, option)) <$> options)) as Hread.
  { apply Forall2_mapM. eapply Forall2_impl; [exact Hradios|].
    intros option v H. eapply radio_of_extends; [|exact H].
    etrans; [apply extends_push | exact Hext]. }
  eexists _, _, _. split; [exact Hnew|]. split; [apply lookup_push_2|].
  unfold radio_group_radios. rewrite Hcontent. cbn [mbind option_bind].
  rewrite Hcolumn. cbn [mbind option_bind].
  unfold list_attr, bind_args. cbn [foldr fst snd].
  rewrite lookup_insert_eq. exact Hread.
Qed.

Lemma RadioGroup_radios_witness :
  ∃ self w σ',
    new_RadioGroup [VStr "a"; VStr "b"] ∅ empty_store = Ok self σ' ∧
    heap σ' !! self
      = Some (FlexComponent ∅ (RadioGroup [VStr "a"; VStr "b"] w)) ∧
    radio_group_radios σ' self
      = Some [(VStr "a", VStr "a"); (VStr "b", VStr "b")].
Proof.
  apply (RadioGroup_radios [VStr "a"; VStr "b"] ∅ empty_store); reflexivity.
Defined.

Lemma Option_returns (option : pyval) σ :
  returns (o ← ft_new ft_dropdown_Option [("key", option)] ∅; mret (VRef o)) σ
    (λ v σ', (attrs ← widget_at σ' ft_dropdown_Option v; attrs !! "key")
             = Some option).
Proof.
  apply returns_bind. apply returns_ft_new; [apply no_collision_empty|].
  apply returns_ret. rewrite widget_at_new. simpl. by simplify_map_eq.
Qed.

Lemma option_key_extends σ σ' v key :
  extends σ σ' →
  (attrs ← widget_at σ ft_dropdown_Option v; attrs !! "key") = Some key →
  (attrs ← widget_at σ' ft_dropdown_Option v; attrs !! "key") = Some key.
Proof.
  intros Hext.
  destruct (widget_at σ ft_dropdown_Option v) as [attrs|] eqn:Hw; [|done].
  by rewrite (widget_at_extends _ _ _ _ _ Hext Hw).
Qed.

(** X10.  A Dropdown whose configuration bag does not name [options] again is
    constructed, and the dropdown it wraps has one menu entry per option, in
    order, with the option as its key. *)
Theorem Dropdown_option_keys (options : list pyval)
    (kwargs : gmap string pyval) (σ : store) :
  kwargs !! "options" = None →
  ∃ self σ', new_Dropdown options kwargs σ = Ok self σ' ∧
    dropdown_option_keys σ' self = Some options.
Proof.
  intros Hc.
  destruct (returns_comprehension
              (λ option, o ← ft_new ft_dropdown_Option [("key", option)] ∅;
                         mret (VRef o))
              (λ option v σ',
                 (attrs ← widget_at σ' ft_dropdown_Option v; attrs !! "key")
                 = Some option) options σ)
    as (opts & σa & Hrun & _ & Hopts).
  { intros option v σ1 σ2 H ?. by eapply option_key_extends. }
  { intros option σ1 _ _. apply Option_returns. }
  eexists _, _. split.
  - unfold new_Dropdown. rewrite (bind_eq _ _ _ _ _ Hrun).
    apply (wrap_eq _ _ _ Dropdown). simpl. by rewrite Hc.
  - unfold dropdown_option_keys.
    rewrite (wrapped_attr_wrap _ _ _ Dropdown _ _ _ eq_refl eq_refl).
    simpl. rewrite lookup_insert_eq. simpl.
    apply mapM_Forall2. eapply Forall2_impl; [exact Hopts|].
    intros option v H. eapply option_key_extends; [|exact H].
    etrans; apply extends_push.
Qed.

Lemma Dropdown_option_keys_witness :
  ∃ self σ',
    new_Dropdown [VStr "red"; VStr "green"] {["width" := VInt 100]} empty_store
      = Ok self σ' ∧
    dropdown_option_keys σ' self = Some [VStr "red"; VStr "green"].
Proof.
  apply (Dropdown_option_keys [VStr "red"; VStr "green"] {["width" := VInt 100]}
           empty_store); reflexivity.
Defined.

(** ** Tabs *)

Lemma normalize_tabs_length tabs : ∀ σ ts σ',
  comprehension normalize_tab tabs σ = Ok ts σ' →
  length (heap σ') = length (heap σ) + length (filter (λ t, is_dict t = true) tabs) ∧
  (Forall (λ t, is_dict t = false) tabs → ts = tabs).
Proof.
  induction tabs as [|tab tabs IH]; intros σ ts σ'; simpl.
  - intros [<- <-]%ret_Ok. split; [lia | done].
  - intros (t & σ1 & Ht & (ts' & σ2 & Hts & [<- <-]%ret_Ok)%bind_Ok)%bind_Ok.
    destruct (IH _ _ _ Hts) as [Hlen Hkeep].
    destruct tab; simpl in Ht;
      try (apply ret_Ok in Ht as [<- <-]; rewrite filter_cons_False by done;
           split; [done|]; intros [_ H]%Forall_cons; by rewrite Hkeep).
    apply last_Ok in Ht as (_ & -> & ->).
    rewrite filter_cons_True by done. rewrite Hlen, push_length. simpl.
    split; [lia|]. by intros [? _]%Forall_cons.
Qed.

(** X11.  A Tabs that is constructed has created one tab object per descriptor
    that is a [dict], the tabs widget and the adapter, and nothing else; when
    no descriptor is a [dict], the tab list of the widget is the list of
    descriptors itself, so that tab objects made beforehand are not copied. *)
Theorem Tabs_objects_created (tabs : list pyval) (kwargs : gmap string pyval)
    (σ : store) (self : loc) (σ' : store) :
  new_Tabs tabs kwargs σ = Ok self σ' →
  length (heap σ')
    = length (heap σ) + length (filter (λ t, is_dict t = true) tabs) + 2 ∧
  (Forall (λ t, is_dict t = false) tabs →
   wrapped_attr σ' self "tabs" = Some (VList tabs)).
Proof.
  unfold new_Tabs. intros (ts & σa & Hts & Hrun)%bind_Ok.
  apply normalize_tabs_length in Hts as [Hlen Hkeep].
  apply wrap_Ok in Hrun as (_ & -> & ->). split.
  - rewrite !push_length, Hlen. lia.
  - intros Hnone. rewrite (Hkeep Hnone).
    rewrite (wrapped_attr_wrap _ _ _ Tabs _ _ _ eq_refl eq_refl). simpl.
    apply lookup_insert_eq.
Qed.

Lemma Tabs_objects_created_witness :
  length (heap (Store [Widget ft_Tab {["text" := VStr "About"]};
                       Widget ft_Tab {["text" := VStr "Home"]};
                       Widget ft_Tabs {["tabs" := VList [VRef 1; VRef 0]]};
                       FlexComponent ∅ (Tabs 2)] []))
    = length (heap (Store [Widget ft_Tab {["text" := VStr "About"]}] []))
      + length (filter (λ t, is_dict t = true)
                  [VDict {["text" := VStr "Home"]}; VRef 0]) + 2 ∧
  (Forall (λ t, is_dict t = false) [VDict {["text" := VStr "Home"]}; VRef 0] →
   wrapped_attr (Store [Widget ft_Tab {["text" := VStr "About"]};
                        Widget ft_Tab {["text" := VStr "Home"]};
                        Widget ft_Tabs {["tabs" := VList [VRef 1; VRef 0]]};
                        FlexComponent ∅ (Tabs 2)] []) 3 "tabs"
     = Some (VList [VDict {["text" := VStr "Home"]}; VRef 0])).
Proof.
  apply (Tabs_objects_created [VDict {["text" := VStr "Home"]}; VRef 0] ∅
           (Store [Widget ft_Tab {["text" := VStr "About"]}] []) 3);
    reflexivity.
Defined.

(** ** What an assignment to [value] changes *)

Lemma value_wrapped c w : value_widget c = Some w → wrapped_widget c = Some w.
Proof. destruct c; simpl; congruence. Qed.

(** X12.  An assignment through the [value] setter that returns has created
    no object and has changed one object only, the widget behind the
    property, and of its options only [value]; [build] still returns that
    widget; and one redisplay has been requested, by the adapter. *)
Theorem value_setter_frame (self : loc) (v : pyval) (σ σ' : store) :
  value_setter self v σ = Ok tt σ' →
  ∃ kwargs c w,
    heap σ !! self = Some (FlexComponent kwargs c) ∧ value_widget c = Some w ∧
    length (heap σ') = length (heap σ) ∧
    (∀ l, l ≠ w → heap σ' !! l = heap σ !! l) ∧
    (∀ k, k ≠ "value" → wrapped_attr σ' self k = wrapped_attr σ self k) ∧
    wrapped_attr σ' self "value" = Some v ∧
    build self σ' = Ok (VRef w) σ' ∧
    redisplays σ' = redisplays σ ++ [self].
Proof.
  unfold value_setter. intros ([kwargs c] & σ0 & Hself & Hrun)%bind_Ok.
  unfold self_of in Hself.
  destruct (heap σ !! self) as [[|kw c']|] eqn:Hs; try done.
  injection Hself as -> -> <-.
  destruct (value_widget c) as [w|] eqn:Hw; [|done].
  apply bind_Ok in Hrun as ([] & σa & Hset & Hup).
  unfold setattr in Hset.
  destruct (heap σ !! w) as [[cls attrs|]|] eqn:Hwidget; try done.
  injection Hset as <-. unfold update in Hup. injection Hup as <-.
  assert (w ≠ self) as Hne by (intros ->; congruence).
  assert (w < length (heap σ)) as Hlt by (by eapply lookup_lt_Some).
  pose proof (value_wrapped _ _ Hw) as Hwrap.
  exists kwargs, c, w. simpl.
  split; [done|]. split; [done|]. split; [apply length_insert|].
  split; [intros l Hl; by apply list_lookup_insert_ne|].
  assert (<[w:=Widget cls (<["value":=v]> attrs)]> (heap σ) !! self
          = Some (FlexComponent kwargs c)) as Hself'
    by (by rewrite list_lookup_insert_ne).
  split; [|split; [|split]].
  - intros k Hk. unfold wrapped_attr. simpl. rewrite Hself', Hs, Hwrap, Hwidget.
    rewrite list_lookup_insert_eq by done. by rewrite lookup_insert_ne.
  - unfold wrapped_attr. simpl. rewrite Hself', Hwrap.
    rewrite list_lookup_insert_eq by done. apply lookup_insert_eq.
  - by apply (build_wrapped _ kwargs c).
  - done.
Qed.

Lemma value_setter_frame_witness :
  ∃ kwargs c w,
    heap (Store [Widget ft_Slider
                   (<["min" := VInt 0]> (<["max" := VInt 9]> {["value" := VInt 3]}));
                 FlexComponent ∅ (Slider 0)] []) !! 1
      = Some (FlexComponent kwargs c) ∧
    value_widget c = Some w ∧
    length (heap (Store [Widget ft_Slider
                           (<["min" := VInt 0]>
                              (<["max" := VInt 9]> {["value" := VInt 5]}));
                         FlexComponent ∅ (Slider 0)] [1]))
      = length (heap (Store [Widget ft_Slider
                               (<["min" := VInt 0]>
                                  (<["max" := VInt 9]> {["value" := VInt 3]}));
                             FlexComponent ∅ (Slider 0)] [])) ∧
    (∀ l, l ≠ w →
       heap (Store [Widget ft_Slider
                      (<["min" := VInt 0]>
                         (<["max" := VInt 9]> {["value" := VInt 5]}));
                    FlexComponent ∅ (Slider 0)] [1]) !! l
       = heap (Store [Widget ft_Slider
                        (<["min" := VInt 0]>
                           (<["max" := VInt 9]> {["value" := VInt 3]}));
                      FlexComponent ∅ (Slider 0)] []) !! l) ∧
    (∀ k, k ≠ "value" →
       wrapped_attr (Store [Widget ft_Slider
                              (<["min" := VInt 0]>
                                 (<["max" := VInt 9]> {["value" := VInt 5]}));
                            FlexComponent ∅ (Slider 0)] [1]) 1 k
       = wrapped_attr (Store [Widget ft_Slider
                                (<["min" := VInt 0]>
                                   (<["max" := VInt 9]> {["value" := VInt 3]}));
                              FlexComponent ∅ (Slider 0)] []) 1 k) ∧
    wrapped_attr (Store [Widget ft_Slider
                           (<["min" := VInt 0]>
                              (<["max" := VInt 9]> {["value" := VInt 5]}));
                         FlexComponent ∅ (Slider 0)] [1]) 1 "value"
      = Some (VInt 5) ∧
    build 1 (Store [Widget ft_Slider
                      (<["min" := VInt 0]>
                         (<["max" := VInt 9]> {["value" := VInt 5]}));
                    FlexComponent ∅ (Slider 0)] [1])
      = Ok (VRef w)
          (Store [Widget ft_Slider
                    (<["min" := VInt 0]>
                       (<["max" := VInt 9]> {["value" := VInt 5]}));
                  FlexComponent ∅ (Slider 0)] [1]) ∧
    redisplays (Store [Widget ft_Slider
                         (<["min" := VInt 0]>
                            (<["max" := VInt 9]> {["value" := VInt 5]}));
                       FlexComponent ∅ (Slider 0)] [1])
      = redisplays (Store [Widget ft_Slider
                             (<["min" := VInt 0]>
                                (<["max" := VInt 9]> {["value" := VInt 3]}));
                           FlexComponent ∅ (Slider 0)] []) ++ [1].
Proof.
  apply (value_setter_frame 1 (VInt 5)
           (Store [Widget ft_Slider
                     (<["min" := VInt 0]>
                        (<["max" := VInt 9]> {["value" := VInt 3]}));
                   FlexComponent ∅ (Slider 0)] [])); reflexivity.
Defined.

(** ** Reading an adapter whose widget holds a value *)

Lemma value_mirrors_at σ self w v : mirrors_at σ self w v → value self σ = Ok v σ.
Proof.
  intros (kw & c & cls & attrs & Hself & Hw & Hwidget & Hv).
  unfold value. rewrite (bind_eq _ _ _ _ _ (self_of_eq _ _ _ _ Hself)).
  rewrite Hw. unfold getattr. by rewrite Hwidget, Hv.
Qed.

(** ** Building again *)

Lemma build_n_fresh self kwargs c :
  wrapped_widget c = None →
  ∀ n σ ws σ', heap σ !! self = Some (FlexComponent kwargs c) →
    build_n n self σ = Ok ws σ' →
    extends σ σ' ∧ length ws = n ∧ NoDup ws ∧
    Forall (λ v, ∃ w, v = VRef w ∧ length (heap σ) ≤ w < length (heap σ')) ws.
Proof.
  intros Hw. induction n as [|n IH]; intros σ ws σ' Hself; simpl.
  - intros [<- <-]%ret_Ok. split; [done|]. split; [done|].
    split; constructor.
  - intros (v & σ1 & Hv & (ws' & σ2 & Hws & [<- <-]%ret_Ok)%bind_Ok)%bind_Ok.
    pose proof (allocates_build _ _ _ _ Hv) as H01.
    destruct (build_creates _ _ _ _ _ _ Hself Hw Hv) as (w & -> & Hbound).
    destruct (IH σ1 ws' σ2 (extends_lookup _ _ _ _ H01 Hself) Hws)
      as (H12 & Hlen & Hnodup & Hall).
    pose proof (extends_length _ _ H12). pose proof (extends_length _ _ H01).
    split; [by etrans|]. split; [by rewrite <- Hlen|]. split.
    + constructor; [|done]. intros Hin.
      rewrite Forall_forall in Hall. destruct (Hall _ Hin) as (w' & [= <-] & ?). lia.
    + constructor; [exists w; split; [done | lia]|].
      eapply Forall_impl; [exact Hall|]. intros v (w' & -> & ?).
      exists w'. split; [done | lia].
Qed.

(** X14.  For the five classes that create their widgets in [build]: calls of
    [build], one after the other on the same adapter, never return the same
    widget twice, and every widget returned is a new object. *)
Theorem builds_return_distinct_widgets (self : loc) (kwargs : gmap string pyval)
    (c : component) (n : nat) (σ : store) (ws : list pyval) (σ' : store) :
  heap σ !! self = Some (FlexComponent kwargs c) → wrapped_widget c = None →
  build_n n self σ = Ok ws σ' →
  length ws = n ∧ NoDup ws ∧
  Forall (λ v, ∃ w, v = VRef w ∧ heap σ !! w = None ∧ is_Some (heap σ' !! w)) ws.
Proof.
  intros Hself Hw Hrun.
  destruct (build_n_fresh _ _ _ Hw _ _ _ _ Hself Hrun) as (_ & Hlen & Hnodup & Hall).
  split; [done|]. split; [done|].
  eapply Forall_impl; [exact Hall|]. intros v (w & -> & Hlo & Hhi).
  exists w. split; [done|].
  split; [by apply lookup_ge_None | by apply lookup_lt_is_Some].
Qed.

Lemma builds_return_distinct_widgets_witness :
  length [VRef 3; VRef 6; VRef 9] = 3 ∧ NoDup [VRef 3; VRef 6; VRef 9] ∧
  Forall (λ v, ∃ w, v = VRef w ∧
            heap (Store [FlexComponent ∅ (Form [] VNone)] []) !! w = None ∧
            is_Some
              (heap (Store
                 [FlexComponent ∅ (Form [] VNone);
                  Widget ft_ElevatedButton
                    (<["text" := VStr "Submit"]> {["on_click" := VNone]});
                  Widget ft_Column {["controls" := VList [VRef 1]]};
                  Widget ft_Container {["content" := VRef 2]};
                  Widget ft_ElevatedButton
                    (<["text" := VStr "Submit"]> {["on_click" := VNone]});
                  Widget ft_Column {["controls" := VList [VRef 4]]};
                  Widget ft_Container {["content" := VRef 5]};
                  Widget ft_ElevatedButton
                    (<["text" := VStr "Submit"]> {["on_click" := VNone]});
                  Widget ft_Column {["controls" := VList [VRef 7]]};
                  Widget ft_Container {["content" := VRef 8]}] []) !! w))
    [VRef 3; VRef 6; VRef 9].
Proof.
  apply (builds_return_distinct_widgets 0 ∅ (Form [] VNone) 3
           (Store [FlexComponent ∅ (Form [] VNone)] []));
    reflexivity.
Defined.

Lemma lines_extends σ σ' column ls :
  extends σ σ' → lines σ column = Some ls → lines σ' column = Some ls.
Proof.
  intros Hext. unfold lines.
  destruct (widget_at σ ft_Column column) as [attrs|] eqn:Hw; [|done].
  rewrite (widget_at_extends _ _ _ _ _ Hext Hw). simpl.
  destruct (list_attr attrs "controls"); [simpl | done].
  apply mapM_extends. intros ??. by apply text_of_extends.
Qed.

Lemma table_headers_extends σ σ' table hs :
  extends σ σ' → table_headers σ table = Some hs → table_headers σ' table = Some hs.
Proof.
  intros Hext. unfold table_headers.
  destruct (widget_at σ ft_DataTable table) as [attrs|] eqn:Hw; [|done].
  rewrite (widget_at_extends _ _ _ _ _ Hext Hw). simpl.
  destruct (list_attr attrs "columns"); [simpl | done].
  apply mapM_extends. intros ??. by apply column_header_extends.
Qed.

Lemma table_rows_extends σ σ' table rs :
  extends σ σ' → table_rows σ table = Some rs → table_rows σ' table = Some rs.
Proof.
  intros Hext. unfold table_rows.
  destruct (widget_at σ ft_DataTable table) as [attrs|] eqn:Hw; [|done].
  rewrite (widget_at_extends _ _ _ _ _ Hext Hw). simpl.
  destruct (list_attr attrs "rows"); [simpl | done].
  apply mapM_extends. intros ??. by apply row_cells_extends.
Qed.

(** If every [build] of an adapter returns a widget with a property that
    survives later allocations, then any number of calls returns, and all the
    widgets returned have the property at the end. *)
Lemma build_n_returns self kwargs c (P : store → pyval → Prop) :
  (∀ σ σ' v, extends σ σ' → P σ v → P σ' v) →
  (∀ σ, heap σ !! self = Some (FlexComponent kwargs c) →
        returns (build self) σ (λ v σ', P σ' v)) →
  ∀ n σ, heap σ !! self = Some (FlexComponent kwargs c) →
    ∃ ws σ', build_n n self σ = Ok ws σ' ∧ extends σ σ' ∧ length ws = n ∧
      Forall (P σ') ws.
Proof.
  intros Hstable Hbuild. induction n as [|n IH]; intros σ Hself; simpl.
  - exists [], σ. by repeat split.
  - destruct (Hbuild σ Hself) as (v & σ1 & Hv & H01 & HP).
    destruct (IH σ1 (extends_lookup _ _ _ _ H01 Hself))
      as (ws & σ2 & Hws & H12 & Hlen & Hall).
    exists (v :: ws), σ2.
    split; [by rewrite (bind_eq _ _ _ _ _ Hv), (bind_eq _ _ _ _ _ Hws)|].
    split; [by etrans|]. split; [simpl; by rewrite Hlen|].
    constructor; [by eapply Hstable | done].
Qed.

(** X15.  Any number of calls of [build] on a list adapter whose configuration bag
    does not name [controls] again returns, and all the columns returned show
    the same lines, one per item. *)
Theorem lists_rebuilt_alike (self : loc) (kwargs : gmap string pyval)
    (c : component) (items : list string) (n : nat) (σ : store) :
  heap σ !! self = Some (FlexComponent kwargs c) →
  c = UnorderedList items ∨ c = OrderedList items →
  kwargs !! "controls" = None →
  ∃ ls ws σ', build_n n self σ = Ok ws σ' ∧ length ws = n ∧
    length ls = length items ∧
    Forall (λ column, lines σ' column = Some ls) ws.
Proof.
  intros Hself [-> | ->] Hc.
  - exists ((λ item, UnorderedList_prefix +:+ item) <$> items).
    destruct (build_n_returns self kwargs (UnorderedList items)
                (λ σ' v, lines σ' v
                   = Some ((λ item, UnorderedList_prefix +:+ item) <$> items)))
      with (n := n) (σ := σ) as (ws & σ' & Hrun & _ & Hlen & Hall); [| |done|].
    { intros ?????. by eapply lines_extends. }
    { intros σ0 H0. unfold returns. rewrite (build_eq _ _ _ _ H0).
      by apply UnorderedList_build_returns. }
    exists ws, σ'. by rewrite length_fmap.
  - exists (imap (λ i item, pretty (i + 1) +:+ ". " +:+ item) items).
    destruct (build_n_returns self kwargs (OrderedList items)
                (λ σ' v, lines σ' v
                   = Some (imap (λ i item, pretty (i + 1) +:+ ". " +:+ item) items)))
      with (n := n) (σ := σ) as (ws & σ' & Hrun & _ & Hlen & Hall); [| |done|].
    { intros ?????. by eapply lines_extends. }
    { intros σ0 H0. unfold returns. rewrite (build_eq _ _ _ _ H0).
      by apply OrderedList_build_returns. }
    exists ws, σ'. by rewrite length_imap.
Qed.

Lemma lists_rebuilt_alike_witness :
  ∃ ls ws σ',
    build_n 2 0 (Store [FlexComponent ∅ (OrderedList ["x"; "y"])] [])
      = Ok ws σ' ∧
    length ws = 2 ∧ length ls = length ["x"; "y"] ∧
    Forall (λ column, lines σ' column = Some ls) ws.
Proof.
  apply (lists_rebuilt_alike 0 ∅ (OrderedList ["x"; "y"]) ["x"; "y"] 2
           (Store [FlexComponent ∅ (OrderedList ["x"; "y"])] []));
    [reflexivity | by right | reflexivity].
Defined.

(** X16.  Any number of calls of [build] on a Table whose configuration bag does
    not name [columns] or [rows] again returns, and every data table returned
    carries the headers and the rows of the adapter. *)
Theorem Table_rebuilt_alike (self : loc) (kwargs : gmap string pyval)
    (headers : list string) (rows : list (list string)) (n : nat) (σ : store) :
  heap σ !! self = Some (FlexComponent kwargs (Table headers rows)) →
  kwargs !! "columns" = None → kwargs !! "rows" = None →
  ∃ ws σ', build_n n self σ = Ok ws σ' ∧ length ws = n ∧
    Forall (λ table, table_headers σ' table = Some headers ∧
                     table_rows σ' table = Some rows) ws.
Proof.
  intros Hself Hc Hr.
  destruct (build_n_returns self kwargs (Table headers rows)
              (λ σ' v, table_headers σ' v = Some headers ∧
                       table_rows σ' v = Some rows))
    with (n := n) (σ := σ) as (ws & σ' & Hrun & _ & Hlen & Hall); [| |done|].
  { intros σ1 σ2 v Hext [Hh Hrows].
    split; [by eapply table_headers_extends | by eapply table_rows_extends]. }
  { intros σ0 H0. unfold returns. rewrite (build_eq _ _ _ _ H0).
    by apply Table_build_returns. }
  by exists ws, σ'.
Qed.

Lemma Table_rebuilt_alike_witness :
  ∃ ws σ',
    build_n 2 0 (Store [FlexComponent ∅ (Table ["A"] [["1"]; []])] [])
      = Ok ws σ' ∧
    length ws = 2 ∧
    Forall (λ table, table_headers σ' table = Some ["A"] ∧
                     table_rows σ' table = Some [["1"]; []]) ws.
Proof.
  apply (Table_rebuilt_alike 0 ∅ ["A"] [["1"]; []] 2
           (Store [FlexComponent ∅ (Table ["A"] [["1"]; []])] []));
    reflexivity.
Defined.

(** * From the constructor to [build] *)

(** The adapter that a constructor of the five container classes returns
    holds the arguments of the call, in the store the constructor leaves and
    in every later store that still has the adapter. *)
Lemma new_component_later kw c σ self σ1 σ2 :
  new_component kw c σ = Ok self σ1 →
  heap σ2 !! self = heap σ1 !! self →
  heap σ2 !! self = Some (FlexComponent kw c).
Proof.
  intros [-> Hheap]%new_component_Ok ->. rewrite Hheap.
  by rewrite lookup_app_r, Nat.sub_diag.
Qed.

(** C10.  A Div is constructed whatever its children and its configuration
    bag.  If the bag does not name [content] again, [build], in the store the
    constructor leaves or any later store that still has the adapter, returns
    a container that holds the whole bag of the constructor call, with the
    column as its content; the column holds the children of the constructor
    call, in order, and nothing else. *)
Theorem Div_kwargs_on_container (controls : list pyval)
    (kwargs : gmap string pyval) (σ : store) :
  kwargs !! "content" = None →
  ∃ self σ1, new_Div controls kwargs σ = Ok self σ1 ∧
    ∀ σ2, heap σ2 !! self = heap σ1 !! self →
      ∃ container column σ', build self σ2 = Ok (VRef container) σ' ∧
        heap σ' !! container
          = Some (Widget ft_Container (<["content" := VRef column]> kwargs)) ∧
        heap σ' !! column
          = Some (Widget ft_Column {["controls" := VList controls]}).
Proof.
  intros Hc. eexists _, _. split; [reflexivity|]. intros σ2 H2.
  apply (Div_build_kwargs_on_container _ controls kwargs σ2); [|done].
  by eapply (new_component_later kwargs (Div controls) σ).
Qed.

Lemma Div_kwargs_on_container_witness :
  ∃ self σ1,
    new_Div [VRef 7; VRef 8] {["padding" := VInt 4]} empty_store = Ok self σ1 ∧
    ∀ σ2, heap σ2 !! self = heap σ1 !! self →
      ∃ container column σ', build self σ2 = Ok (VRef container) σ' ∧
        heap σ' !! container
          = Some (Widget ft_Container
                    (<["content" := VRef column]> {["padding" := VInt 4]})) ∧
        heap σ' !! column
          = Some (Widget ft_Column {["controls" := VList [VRef 7; VRef 8]]}).
Proof.
  apply (Div_kwargs_on_container [VRef 7; VRef 8] {["padding" := VInt 4]}
           empty_store); reflexivity.
Defined.

(** The run of the witness, evaluated: [Div(c7, c8, padding=4).build()]. *)
Example Div_built :
  new_Div [VRef 7; VRef 8] {["padding" := VInt 4]} empty_store
    = Ok 0 (Store [FlexComponent {["padding" := VInt 4]} (Div [VRef 7; VRef 8])] []) ∧
  build 0 (Store [FlexComponent {["padding" := VInt 4]} (Div [VRef 7; VRef 8])] [])
    = Ok (VRef 2)
        (Store [FlexComponent {["padding" := VInt 4]} (Div [VRef 7; VRef 8]);
                Widget ft_Column {["controls" := VList [VRef 7; VRef 8]]};
                Widget ft_Container
                  (<["content" := VRef 1]> {["padding" := VInt 4]})] []).
Proof. split; reflexivity. Qed.

(** C7.  A Form is constructed whatever its children, its submit handler and
    its configuration bag.  If the bag does not name [content] again,
    [build], in the store the constructor leaves or any later store that
    still has the adapter, returns a container whose content is a column; the
    controls of the column are the children of the constructor call, in
    order, then one button with the text "Submit" and the submit handler of
    the constructor call as its click handler. *)
Theorem Form_children_then_submit (controls : list pyval) (on_submit : pyval)
    (kwargs : gmap string pyval) (σ : store) :
  kwargs !! "content" = None →
  ∃ self σ1, new_Form controls on_submit kwargs σ = Ok self σ1 ∧
    ∀ σ2, heap σ2 !! self = heap σ1 !! self →
      ∃ container column submit σ', build self σ2 = Ok (VRef container) σ' ∧
        heap σ' !! container
          = Some (Widget ft_Container (<["content" := VRef column]> kwargs)) ∧
        heap σ' !! column
          = Some (Widget ft_Column
                    {["controls" := VList (controls ++ [VRef submit])]}) ∧
        heap σ' !! submit
          = Some (Widget ft_ElevatedButton
                    (<["text" := VStr "Submit"]> {["on_click" := on_submit]})).
Proof.
  intros Hc. eexists _, _. split; [reflexivity|]. intros σ2 H2.
  apply (Form_build_children_then_submit _ controls on_submit kwargs σ2); [|done].
  by eapply (new_component_later kwargs (Form controls on_submit) σ).
Qed.

Lemma Form_children_then_submit_witness :
  ∃ self σ1,
    new_Form [VRef 5; VRef 6] (VFun "save") ∅ empty_store = Ok self σ1 ∧
    ∀ σ2, heap σ2 !! self = heap σ1 !! self →
      ∃ container column submit σ', build self σ2 = Ok (VRef container) σ' ∧
        heap σ' !! container
          = Some (Widget ft_Container (<["content" := VRef column]> ∅)) ∧
        heap σ' !! column
          = Some (Widget ft_Column
                    {["controls" := VList ([VRef 5; VRef 6] ++ [VRef submit])]}) ∧
        heap σ' !! submit
          = Some (Widget ft_ElevatedButton
                    (<["text" := VStr "Submit"]> {["on_click" := VFun "save"]})).
Proof.
  apply (Form_children_then_submit [VRef 5; VRef 6] (VFun "save") ∅ empty_store);
    reflexivity.
Defined.

(** The run of the witness, evaluated: [Form(c5, c6, on_submit=save).build()]. *)
Example Form_built :
  new_Form [VRef 5; VRef 6] (VFun "save") ∅ empty_store
    = Ok 0 (Store [FlexComponent ∅ (Form [VRef 5; VRef 6] (VFun "save"))] []) ∧
  build 0 (Store [FlexComponent ∅ (Form [VRef 5; VRef 6] (VFun "save"))] [])
    = Ok (VRef 3)
        (Store [FlexComponent ∅ (Form [VRef 5; VRef 6] (VFun "save"));
                Widget ft_ElevatedButton
                  (<["text" := VStr "Submit"]> {["on_click" := VFun "save"]});
                Widget ft_Column {["controls" := VList [VRef 5; VRef 6; VRef 1]]};
                Widget ft_Container {["content" := VRef 2]}] []).
Proof. split; reflexivity. Qed.

(** C4.  An OrderedList is constructed whatever its items and its
    configuration bag.  If the bag does not name [controls] again, [build],
    in the store the constructor leaves or any later store that still has the
    adapter, returns a column with one line per item of the constructor call,
    in order; the line of the item at position [i], counted from 0, is the
    decimal numeral of [i + 1], a dot, a space, and the item. *)
Theorem OrderedList_lines (items : list string) (kwargs : gmap string pyval)
    (σ : store) :
  kwargs !! "controls" = None →
  ∃ self σ1, new_OrderedList items kwargs σ = Ok self σ1 ∧
    ∀ σ2, heap σ2 !! self = heap σ1 !! self →
      ∃ column σ', build self σ2 = Ok column σ' ∧
        lines σ' column
          = Some (imap (λ i item, pretty (i + 1) +:+ ". " +:+ item) items).
Proof.
  intros Hc. eexists _, _. split; [reflexivity|]. intros σ2 H2.
  apply (OrderedList_build_lines _ items kwargs σ2); [|done].
  by eapply (new_component_later kwargs (OrderedList items) σ).
Qed.

Lemma OrderedList_lines_witness :
  ∃ self σ1, new_OrderedList ["x"; "y"; "z"] ∅ empty_store = Ok self σ1 ∧
    ∀ σ2, heap σ2 !! self = heap σ1 !! self →
      ∃ column σ', build self σ2 = Ok column σ' ∧
        lines σ' column = Some ["1. x"; "2. y"; "3. z"].
Proof.
  apply (OrderedList_lines ["x"; "y"; "z"] ∅ empty_store); reflexivity.
Defined.

(** The run of the witness, evaluated: [OrderedList("x", "y", "z").build()]. *)
Example OrderedList_built :
  new_OrderedList ["x"; "y"; "z"] ∅ empty_store
    = Ok 0 (Store [FlexComponent ∅ (OrderedList ["x"; "y"; "z"])] []) ∧
  build 0 (Store [FlexComponent ∅ (OrderedList ["x"; "y"; "z"])] [])
    = Ok (VRef 4)
        (Store [FlexComponent ∅ (OrderedList ["x"; "y"; "z"]);
                Widget ft_Text {["value" := VStr "1. x"]};
                Widget ft_Text {["value" := VStr "2. y"]};
                Widget ft_Text {["value" := VStr "3. z"]};
                Widget ft_Column
                  {["controls" := VList [VRef 1; VRef 2; VRef 3]]}] []).
Proof. split; reflexivity. Qed.

(** C6.  A Table is constructed whatever its headers, its rows and its
    configuration bag.  If the bag does not name [columns] or [rows] again,
    [build], in the store the constructor leaves or any later store that
    still has the adapter, returns a data table whose columns carry the
    header strings of the constructor call, one column per header in order,
    and whose rows carry its cell strings, one row per input row in order,
    each row with its cells in order. *)
Theorem Table_columns_and_rows (headers : list string)
    (rows : list (list string)) (kwargs : gmap string pyval) (σ : store) :
  kwargs !! "columns" = None → kwargs !! "rows" = None →
  ∃ self σ1, new_Table headers rows kwargs σ = Ok self σ1 ∧
    ∀ σ2, heap σ2 !! self = heap σ1 !! self →
      ∃ table σ', build self σ2 = Ok table σ' ∧
        table_headers σ' table = Some headers ∧
        table_rows σ' table = Some rows.
Proof.
  intros Hc Hr. eexists _, _. split; [reflexivity|]. intros σ2 H2.
  apply (Table_build_columns_and_rows _ headers rows kwargs σ2); [|done..].
  by eapply (new_component_later kwargs (Table headers rows) σ).
Qed.

Lemma Table_columns_and_rows_witness :
  ∃ self σ1,
    new_Table ["A"; "B"] [["1"; "2"]; ["3"; "4"]] ∅ empty_store = Ok self σ1 ∧
    ∀ σ2, heap σ2 !! self = heap σ1 !! self →
      ∃ table σ', build self σ2 = Ok table σ' ∧
        table_headers σ' table = Some ["A"; "B"] ∧
        table_rows σ' table = Some [["1"; "2"]; ["3"; "4"]].
Proof.
  apply (Table_columns_and_rows ["A"; "B"] [["1"; "2"]; ["3"; "4"]] ∅ empty_store);
    reflexivity.
Defined.

(** The run of the witness, evaluated: two columns and two rows, read back
    from the data table that [build] returns. *)
Example Table_built :
  ∃ σ',
    new_Table ["A"; "B"] [["1"; "2"]; ["3"; "4"]] ∅ empty_store
      = Ok 0 (Store [FlexComponent ∅
                       (Table ["A"; "B"] [["1"; "2"]; ["3"; "4"]])] []) ∧
    build 0 (Store [FlexComponent ∅
                      (Table ["A"; "B"] [["1"; "2"]; ["3"; "4"]])] [])
      = Ok (VRef 15) σ' ∧
    length (heap σ') = 16 ∧
    (attrs ← widget_at σ' ft_DataTable (VRef 15); list_attr attrs "columns")
      = Some [VRef 2; VRef 4] ∧
    (attrs ← widget_at σ' ft_DataTable (VRef 15); list_attr attrs "rows")
      = Some [VRef 9; VRef 14] ∧
    table_headers σ' (VRef 15) = Some ["A"; "B"] ∧
    table_rows σ' (VRef 15) = Some [["1"; "2"]; ["3"; "4"]].
Proof. eexists. split; [reflexivity|]. split; [reflexivity|]. by repeat split. Qed.

(** * The [value] property of the seven classes, whatever the bag *)

Lemma reads_at_extends σ σ' self w v :
  extends σ σ' → reads_at σ self w v → reads_at σ' self w v.
Proof.
  intros Hext (kw & c & cls & attrs & Hself & Hw & Hwidget & Hv).
  exists kw, c, cls, attrs.
  split; [by eapply extends_lookup|]. split; [done|].
  split; [by eapply extends_lookup | done].
Qed.

Lemma value_reads_at σ self w v : reads_at σ self w v → value self σ = Ok v σ.
Proof.
  intros (kw & c & cls & attrs & Hself & Hw & Hwidget & Hv).
  unfold value. rewrite (bind_eq _ _ _ _ _ (self_of_eq _ _ _ _ Hself)).
  rewrite Hw. unfold getattr. by rewrite Hwidget, Hv.
Qed.

Lemma mirrors_at_mirrors σ self w v : mirrors_at σ self w v → mirrors σ self v.
Proof. intros (kw & c & cls & attrs & H). by exists kw, c, w, cls, attrs. Qed.

Lemma mirrors_wrapped_attr σ self v :
  mirrors σ self v → wrapped_attr σ self "value" = Some v.
Proof.
  intros (kw & c & w & cls & attrs & Hself & Hw & Hwidget & Hv).
  unfold wrapped_attr. by rewrite Hself, (value_wrapped _ _ Hw), Hwidget.
Qed.

(** An assignment needs no earlier value: it succeeds on the widget of any
    adapter that has the property, and leaves the other adapters' reads as
    they were. *)
Lemma value_setter_reads_at σ a wa va v :
  reads_at σ a wa va →
  ∃ σ', value_setter a v σ = Ok tt σ' ∧ mirrors_at σ' a wa v ∧
    redisplays σ' = redisplays σ ++ [a] ∧
    ∀ b wb vb, wb ≠ wa → reads_at σ b wb vb → reads_at σ' b wb vb.
Proof.
  intros (kw & c & cls & attrs & Hself & Hw & Hwidget & Hv).
  assert (wa ≠ a) as Hne by (intros ->; congruence).
  eexists. split; [|split; [|split]].
  - unfold value_setter. rewrite (bind_eq _ _ _ _ _ (self_of_eq _ _ _ _ Hself)).
    rewrite Hw. unfold setattr, update, mbind, M_bind. by rewrite Hwidget.
  - exists kw, c, cls, (<["value" := v]> attrs). simpl.
    rewrite list_lookup_insert_ne by done.
    rewrite list_lookup_insert_eq by (by eapply lookup_lt_Some).
    by rewrite lookup_insert_eq.
  - done.
  - intros b wb vb Hwb (kwb & cb & clsb & attrsb & Hb & Hwbv & Hwidgetb & Hvb).
    assert (wa ≠ b) as Hneb by (intros ->; congruence).
    exists kwb, cb, clsb, attrsb. simpl.
    by rewrite !list_lookup_insert_ne by done.
Qed.

Lemma wrap_reads_at σ c named kw (mk : loc → component) σb self σ' :
  extends σ σb →
  (w ← ft_new c named kw; new_component kw (mk w)) σb = Ok self σ' →
  (∀ w, value_widget (mk w) = Some w) →
  ∃ w, reads_at σ' self w (default VNone (bind_args named kw !! "value")) ∧
    length (heap σ) ≤ w < length (heap σ') ∧
    wrapped_attr σ' self "value" = bind_args named kw !! "value".
Proof.
  intros Hext (_ & -> & ->)%wrap_Ok Hmk. exists (length (heap σb)).
  split; [|split].
  - exists kw, (mk (length (heap σb))), c, (bind_args named kw).
    by rewrite lookup_push_2, lookup_push_1.
  - apply extends_length in Hext. rewrite !push_length. lia.
  - by rewrite (wrapped_attr_wrap _ _ _ mk _ _ _
                  (value_wrapped _ _ (Hmk _)) eq_refl).
Qed.

(** Each of the seven constructors leaves an adapter whose property can be
    read and assigned, whether or not the call gave a value; if it gave one,
    that is what the property reads. *)
Lemma construct_reads_at c σ self σ1 :
  construct c σ = Ok self σ1 → value_bearing c = true →
  ∃ w v, reads_at σ1 self w v ∧ length (heap σ) ≤ w < length (heap σ1) ∧
    ∀ v0, initial_value c = Some v0 →
      v = v0 ∧ wrapped_attr σ1 self "value" = Some v0.
Proof.
  assert (∀ σb named kw (mk : loc → component) cls,
            extends σ σb →
            (w ← ft_new cls named kw; new_component kw (mk w)) σb = Ok self σ1 →
            (∀ w, value_widget (mk w) = Some w) →
            bind_args named kw !! "value" = initial_value c →
            ∃ w v, reads_at σ1 self w v ∧
              length (heap σ) ≤ w < length (heap σ1) ∧
              ∀ v0, initial_value c = Some v0 →
                v = v0 ∧ wrapped_attr σ1 self "value" = Some v0) as Hwrap.
  { intros σb named kw mk cls Hext Hrun Hmk Hinit.
    destruct (wrap_reads_at σ _ _ _ _ _ _ _ Hext Hrun Hmk) as (w & Hr & Hb & Ha).
    exists w, (default VNone (bind_args named kw !! "value")).
    split; [done|]. split; [done|].
    intros v0 Hv0. rewrite Ha, Hinit, Hv0. done. }
  destruct c; simpl value_bearing; try done; simpl construct; intros Hrun _.
  - eapply Hwrap; [reflexivity | exact Hrun | done |]. simpl. by simplify_map_eq.
  - eapply Hwrap; [reflexivity | exact Hrun | done |]. simpl. by simplify_map_eq.
  - eapply Hwrap; [reflexivity | exact Hrun | done |]. simpl. by simplify_map_eq.
  - unfold new_RadioGroup in Hrun.
    apply bind_Ok_extends in Hrun as (? & ? & ? & Hrun); [|solve_allocates].
    apply bind_Ok_extends in Hrun as (? & ? & ? & Hrun); [|solve_allocates].
    eapply Hwrap; [by etrans | exact Hrun | done |]. simpl. by simplify_map_eq.
  - unfold new_Dropdown in Hrun.
    apply bind_Ok_extends in Hrun as (? & ? & ? & Hrun); [|solve_allocates].
    eapply Hwrap; [done | exact Hrun | done |]. simpl. by simplify_map_eq.
  - eapply Hwrap; [reflexivity | exact Hrun | done |]. simpl. by simplify_map_eq.
  - eapply Hwrap; [reflexivity | exact Hrun | done |]. simpl. by simplify_map_eq.
Qed.

(** C3.  Let an adapter of one of the seven classes with a [value] property
    be constructed, with or without an initial value, and let any values be
    assigned to the property, one after the other.  Every assignment
    succeeds, also the first one on an adapter that was given no value;
    afterwards the property can be read, and reading leaves the store as it
    is and so requests no redisplay; the redisplay requests made since
    construction are one per assignment, each by the adapter; what is read,
    and what the widget holds, is the value assigned last, and if none was
    assigned, the initial value that the constructor call gave. *)
Theorem value_reads_what_was_set (c : ctor) (vs : list pyval)
    (σ : store) (self : loc) (σ1 : store) :
  construct c σ = Ok self σ1 → value_bearing c = true →
  ∃ σ2 v, set_all self vs σ1 = Ok tt σ2 ∧
    value self σ2 = Ok v σ2 ∧
    redisplays σ2 = redisplays σ1 ++ replicate (length vs) self ∧
    match last vs with
    | Some v' => v = v' ∧ wrapped_attr σ2 self "value" = Some v'
    | None => ∀ v0, initial_value c = Some v0 →
                v = v0 ∧ wrapped_attr σ2 self "value" = Some v0
    end.
Proof.
  intros Hrun Hc.
  destruct (construct_reads_at _ _ _ _ Hrun Hc) as (w & v & Hr & _ & Hinit).
  destruct vs as [|v1 vs].
  - exists σ1, v. split; [done|]. split; [by eapply value_reads_at|].
    split; [by rewrite app_nil_r | done].
  - destruct (value_setter_reads_at σ1 self w v v1 Hr) as (σa & Hset & Hm & Hra & _).
    apply mirrors_at_mirrors in Hm.
    destruct (set_all_mirrors vs σa self v1 Hm) as (σ2 & Hall & Hm2 & Hr2).
    exists σ2, (default v1 (last vs)).
    split; [simpl; by rewrite (bind_eq _ _ _ _ _ Hset)|].
    split; [by apply value_mirrors|].
    split; [rewrite Hr2, Hra, <- app_assoc; done|].
    pose proof (default_last_cons v1 v1 vs) as Hlast.
    destruct (last (v1 :: vs)) as [v'|] eqn:El.
    + simpl in Hlast. subst v'. split; [done | by apply mirrors_wrapped_attr].
    + by apply last_None in El.
Qed.

Lemma value_reads_what_was_set_witness :
  ∃ σ2 v,
    set_all 1 [VStr "a"; VStr "b"]
      (Store [Widget ft_TextField {["hint_text" := VStr "name"]};
              FlexComponent ∅ (Input 0)] []) = Ok tt σ2 ∧
    value 1 σ2 = Ok v σ2 ∧
    redisplays σ2 = [] ++ replicate 2 1 ∧
    v = VStr "b" ∧ wrapped_attr σ2 1 "value" = Some (VStr "b").
Proof.
  apply (value_reads_what_was_set (CallInput (VStr "name") ∅)
           [VStr "a"; VStr "b"] empty_store 1); reflexivity.
Defined.

(** Two runs, evaluated.  [Checkbox("ok", True)] reads True, and after
    [c.value = False] it reads False with one redisplay requested;
    [Input("name")], given no value, accepts [i.value = "a"] and then reads
    "a". *)
Example Checkbox_true_then_false :
  ∃ σ1 σ2,
    new_Checkbox (VStr "ok") (VBool true) ∅ empty_store = Ok 1 σ1 ∧
    value 1 σ1 = Ok (VBool true) σ1 ∧
    value_setter 1 (VBool false) σ1 = Ok tt σ2 ∧
    value 1 σ2 = Ok (VBool false) σ2 ∧
    redisplays σ1 = [] ∧ redisplays σ2 = [1].
Proof. eexists _, _. by repeat split. Qed.

Example Input_without_value_then_set :
  ∃ σ1 σ2,
    new_Input (VStr "name") ∅ empty_store = Ok 1 σ1 ∧
    value_setter 1 (VStr "a") σ1 = Ok tt σ2 ∧
    value 1 σ2 = Ok (VStr "a") σ2 ∧
    redisplays σ2 = [1].
Proof. eexists _, _. by repeat split. Qed.

(** X13.  Two adapters with a [value] property, constructed one after the
    other, with or without initial values, do not share their value: each
    can be read, an assignment to either succeeds, is read back from it and
    leaves what the other reads as it was, and the redisplay is requested by
    the adapter assigned to. *)
Theorem values_independent (c1 c2 : ctor) (σ : store) (a : loc) (σ1 : store)
    (b : loc) (σ2 : store) :
  construct c1 σ = Ok a σ1 → value_bearing c1 = true →
  construct c2 σ1 = Ok b σ2 → value_bearing c2 = true →
  ∃ va vb, value a σ2 = Ok va σ2 ∧ value b σ2 = Ok vb σ2 ∧
    (∀ v0, initial_value c1 = Some v0 → va = v0) ∧
    (∀ v0, initial_value c2 = Some v0 → vb = v0) ∧
    ∀ v,
      (∃ σ3, value_setter a v σ2 = Ok tt σ3 ∧ value a σ3 = Ok v σ3 ∧
         value b σ3 = Ok vb σ3 ∧ redisplays σ3 = redisplays σ2 ++ [a]) ∧
      (∃ σ3, value_setter b v σ2 = Ok tt σ3 ∧ value b σ3 = Ok v σ3 ∧
         value a σ3 = Ok va σ3 ∧ redisplays σ3 = redisplays σ2 ++ [b]).
Proof.
  intros H1 Hc1 H2 Hc2.
  destruct (construct_reads_at _ _ _ _ H1 Hc1) as (wa & va & Ha & Hwa & Hia).
  destruct (construct_reads_at _ _ _ _ H2 Hc2) as (wb & vb & Hb & Hwb & Hib).
  assert (extends σ1 σ2) as Hext.
  { apply construct_shape in H2 as (σb & comp & Hext & _ & ->).
    etrans; [done | apply extends_push]. }
  apply (reads_at_extends _ _ _ _ _ Hext) in Ha.
  assert (wa ≠ wb) as Hne by lia.
  exists va, vb.
  split; [by eapply value_reads_at|]. split; [by eapply value_reads_at|].
  split; [intros v0 Hv0; by destruct (Hia v0 Hv0)|].
  split; [intros v0 Hv0; by destruct (Hib v0 Hv0)|].
  intros v. split.
  - destruct (value_setter_reads_at σ2 a wa va v Ha) as (σ3 & Hset & Ha3 & Hr & Hkeep).
    exists σ3. split; [done|]. split; [by eapply value_mirrors_at|].
    split; [|done]. eapply value_reads_at. by eapply Hkeep.
  - destruct (value_setter_reads_at σ2 b wb vb v Hb) as (σ3 & Hset & Hb3 & Hr & Hkeep).
    exists σ3. split; [done|]. split; [by eapply value_mirrors_at|].
    split; [|done]. eapply value_reads_at. by eapply Hkeep.
Qed.

Lemma values_independent_witness :
  ∃ va vb,
    value 1 (Store [Widget ft_Text {["value" := VStr "a"]};
                    FlexComponent ∅ (Text 0);
                    Widget ft_Dropdown {["options" := VList []]};
                    FlexComponent ∅ (Dropdown 2)] [])
      = Ok va (Store [Widget ft_Text {["value" := VStr "a"]};
                      FlexComponent ∅ (Text 0);
                      Widget ft_Dropdown {["options" := VList []]};
                      FlexComponent ∅ (Dropdown 2)] []) ∧
    value 3 (Store [Widget ft_Text {["value" := VStr "a"]};
                    FlexComponent ∅ (Text 0);
                    Widget ft_Dropdown {["options" := VList []]};
                    FlexComponent ∅ (Dropdown 2)] [])
      = Ok vb (Store [Widget ft_Text {["value" := VStr "a"]};
                      FlexComponent ∅ (Text 0);
                      Widget ft_Dropdown {["options" := VList []]};
                      FlexComponent ∅ (Dropdown 2)] []) ∧
    (∀ v0, initial_value (CallText (VStr "a") ∅) = Some v0 → va = v0) ∧
    (∀ v0, initial_value (CallDropdown [] ∅) = Some v0 → vb = v0) ∧
    ∀ v,
      (∃ σ3,
         value_setter 1 v
           (Store [Widget ft_Text {["value" := VStr "a"]};
                   FlexComponent ∅ (Text 0);
                   Widget ft_Dropdown {["options" := VList []]};
                   FlexComponent ∅ (Dropdown 2)] []) = Ok tt σ3 ∧
         value 1 σ3 = Ok v σ3 ∧ value 3 σ3 = Ok vb σ3 ∧
         redisplays σ3 = [] ++ [1]) ∧
      (∃ σ3,
         value_setter 3 v
           (Store [Widget ft_Text {["value" := VStr "a"]};
                   FlexComponent ∅ (Text 0);
                   Widget ft_Dropdown {["options" := VList []]};
                   FlexComponent ∅ (Dropdown 2)] []) = Ok tt σ3 ∧
         value 3 σ3 = Ok v σ3 ∧ value 1 σ3 = Ok va σ3 ∧
         redisplays σ3 = [] ++ [3]).
Proof.
  apply (values_independent (CallText (VStr "a") ∅) (CallDropdown [] ∅)
           empty_store 1
           (Store [Widget ft_Text {["value" := VStr "a"]};
                   FlexComponent ∅ (Text 0)] []) 3);
    reflexivity.
Defined.

(** * A bag that repeats a parameter *)

(** X1.  Let the configuration bag be one that a call can have: no entry
    under a parameter of the constructor.  If it has an entry under a name
    that the constructor itself writes out in the toolkit call that receives
    the bag, the constructor raises [TypeError] and returns no adapter. *)
Theorem construct_raises_on_repeat (c : ctor) (σ : store) :
  repeats (ctor_kwargs c) (ctor_params c) = false →
  repeats (ctor_kwargs c) (ctor_keywords c) = true →
  construct c σ = Raise TypeError.
Proof.
  intros _ Hr. pose proof (construct_outcome c σ) as H. by rewrite Hr in H.
Qed.

Lemma construct_raises_on_repeat_witness :
  construct (CallHeading 1 (VStr "Title") {["size" := VInt 40]}) empty_store
    = Raise TypeError.
Proof.
  apply (construct_raises_on_repeat
           (CallHeading 1 (VStr "Title") {["size" := VInt 40]}) empty_store);
    reflexivity.
Defined.

(** X2.  For Div, UnorderedList, OrderedList, Table and Form, let the
    configuration bag be one that a call can have.  If it has an entry under
    a name that [build] writes out ([content] for Div and Form, [controls]
    for the lists, [columns] for Table), the constructor still returns an
    adapter, and [build] on it raises [TypeError], in the store the
    constructor leaves and in any later store that still has the adapter. *)
Theorem bad_bag_found_at_build (c : ctor) (σ : store) :
  creates_in_build c = true →
  repeats (ctor_kwargs c) (ctor_params c) = false →
  repeats (ctor_kwargs c) (ctor_build_keywords c) = true →
  ∃ self σ1, construct c σ = Ok self σ1 ∧
    ∀ σ2, heap σ2 !! self = heap σ1 !! self → build self σ2 = Raise TypeError.
Proof.
  intros Hc _ Hr.
  destruct c; simpl in Hc; try done; simpl in Hr;
    (eexists _, _; split; [reflexivity|]; intros σ2 H2).
  - pose proof (build_outcome _ _ _ σ2
        (new_component_later kwargs (Div controls) σ _ _ σ2 eq_refl H2)) as H.
    simpl in H. by rewrite Hr in H.
  - pose proof (build_outcome _ _ _ σ2
        (new_component_later kwargs (UnorderedList items) σ _ _ σ2 eq_refl H2)) as H.
    simpl in H. by rewrite Hr in H.
  - pose proof (build_outcome _ _ _ σ2
        (new_component_later kwargs (OrderedList items) σ _ _ σ2 eq_refl H2)) as H.
    simpl in H. by rewrite Hr in H.
  - pose proof (build_outcome _ _ _ σ2
        (new_component_later kwargs (Table headers rows) σ _ _ σ2 eq_refl H2)) as H.
    simpl in H. by rewrite Hr in H.
  - pose proof (build_outcome _ _ _ σ2
        (new_component_later kwargs (Form controls on_submit) σ _ _ σ2 eq_refl H2)) as H.
    simpl in H. by rewrite Hr in H.
Qed.

Lemma bad_bag_found_at_build_witness :
  ∃ self σ1,
    construct (CallTable ["A"] [["1"]] {["columns" := VList []]}) empty_store
      = Ok self σ1 ∧
    ∀ σ2, heap σ2 !! self = heap σ1 !! self → build self σ2 = Raise TypeError.
Proof.
  apply (bad_bag_found_at_build
           (CallTable ["A"] [["1"]] {["columns" := VList []]}) empty_store);
    reflexivity.
Defined.
